(** * Snowflake SQL API adapter: statement lifecycle, row mapping, error taxonomy

    A shallow embedding of the client (client.ts, kept under
    src/tools/schema.ts), the credential parsing (types/env.ts), the worker's
    use of it (index.ts, also under src/tools/schema.ts), the entity records
    (types/entities.ts) and the error classes (utils/errors.ts, kept under
    src/utils/formatters.ts), followed by the properties the specification
    states about them.

    Conventions of the embedding.
    - A JavaScript string is a [string], one character per UTF-16 code unit;
      the model covers code units below 256 (Latin-1 text), on which
      [toLowerCase], [includes] and [parseInt10] below are exact.
    - [undefined] is [None]; data is typed as the TypeScript declarations
      type it (a cell of a row is a string, a field declared [?:] is an
      option).  The body of an error reply is the exception: the code reads
      it as [unknown], and it is kept as the JSON value it is ([Json]).
    - A JavaScript number that the code only copies is an integer [Z]; a
      number that [parseInt] returns is the double nearest to the integer
      read, [NaN] and the infinities kept apart ([number]).
    - A thrown exception is the [Throw] branch of [Result]. *)

From Stdlib Require Import ZArith Ascii.
From stdpp Require Import gmap strings list pretty.

Local Open Scope Z_scope.

(** ** JavaScript primitives used by the client *)

Section JsStrings.

(** One code unit of [String.prototype.toLowerCase] on Latin-1: the
    letters A-Z, and the accented capitals U+00C0-U+00DE except the
    multiplication sign U+00D7, move up by 32. *)
Definition lower_char (c : ascii) : ascii :=
  let n := N_of_ascii c in
  if ((65 <=? n) && (n <=? 90) || (192 <=? n) && (n <=? 214)
      || (216 <=? n) && (n <=? 222))%N
  then ascii_of_N (n + 32) else c.

Fixpoint toLowerCase (s : string) : string :=
  match s with
  | EmptyString => EmptyString
  | String c t => String (lower_char c) (toLowerCase t)
  end.

Fixpoint startsWith (s p : string) : bool :=
  match p, s with
  | EmptyString, _ => true
  | String _ _, EmptyString => false
  | String a p', String b s' => if Ascii.eqb a b then startsWith s' p' else false
  end.

(** [s.includes(sub)] *)
Fixpoint includes (s sub : string) : bool :=
  startsWith s sub
  || match s with
     | EmptyString => false
     | String _ t => includes t sub
     end.

(** Truthiness of a value of type [string | undefined | null]. *)
Definition truthy (o : option string) : bool :=
  match o with
  | Some s => negb (String.eqb s EmptyString)
  | None => false
  end.

(** [a || b] on optional strings. *)
Definition or_else (a b : option string) : option string :=
  if truthy a then a else b.

(** [a || d] where [d] is a string literal. *)
Definition or_default (a : option string) (d : string) : string :=
  match a with
  | Some s => if String.eqb s EmptyString then d else s
  | None => d
  end.

End JsStrings.

(** ** types/entities.ts: statement status *)

Inductive StatementStatus :=
| running
| resuming_warehouse
| queued
| blocked
| success
| failed_with_error
| failed_with_incident
| aborted.

(** ** client.ts: status inference *)

(** [message?.toLowerCase().includes(sub)], read as a condition. *)
Definition message_includes (message : option string) (sub : string) : bool :=
  match message with
  | Some m => includes (toLowerCase m) sub
  | None => false
  end.

Definition mapStatus (statusUrl message : option string) : StatementStatus :=
  if message_includes message "success"
     || (negb (truthy statusUrl) && negb (truthy message))
  then success
  else if truthy statusUrl then running
  else if message_includes message "failed" || message_includes message "error"
  then failed_with_error
  else success.

(** ** Numbers and [parseInt(_, 10)] *)

(** A number produced by [parseInt]: a double whose value is an integer, an
    infinity when the digits read exceed every double, or [NaN] when the
    text has no leading digits.  (The sign of zero is not kept apart.) *)
Inductive number :=
| NaN
| Int (z : Z)
| Infinity (negative : bool).

Section ParseInt.

(** White space stripped by [parseInt], among the Latin-1 code units:
    TAB, LF, VT, FF, CR, SP and NBSP. *)
Definition is_ws (c : ascii) : bool :=
  let n := N_of_ascii c in
  ((9 <=? n) && (n <=? 13) || (n =? 32) || (n =? 160))%N.

Fixpoint trimStart (s : string) : string :=
  match s with
  | EmptyString => EmptyString
  | String c t => if is_ws c then trimStart t else s
  end.

Definition digit (c : ascii) : option Z :=
  let n := N_of_ascii c in
  if ((48 <=? n) && (n <=? 57))%N then Some (Z.of_N n - 48) else None.

(** The longest prefix of decimal digits, as its value; [acc] is the value
    read so far ([None] before the first digit). *)
Fixpoint digits (s : string) (acc : option Z) : option Z :=
  match s with
  | EmptyString => acc
  | String c t =>
      match digit c with
      | Some d => digits t (Some (10 * default 0 acc + d))
      | None => acc
      end
  end.

(** The double nearest to the integer [z], ties to the even mantissa: an
    integer below 2^53 in magnitude is a double; a larger one keeps its 53
    leading bits, rounded by the bits dropped, and is an infinity from
    2^1024 on. *)
Definition to_double (z : Z) : number :=
  let a := Z.abs z in
  if a <? 2 ^ 53 then Int z
  else
    let e := Z.log2 a - 52 in
    let q := a / 2 ^ e in
    let r := a mod 2 ^ e in
    let half := 2 ^ (e - 1) in
    let q := if (half <? r) || ((r =? half) && Z.odd q) then q + 1 else q in
    let m := q * 2 ^ e in
    if 2 ^ 1024 <=? m then Infinity (z <? 0) else Int (Z.sgn z * m).

(** [parseInt(s, 10)].  (Past the 20th significant digit the language lets
    the engine replace digits by 0; V8 keeps them, as is done here.) *)
Definition parseInt10 (s : string) : number :=
  let t := trimStart s in
  let '(sign, rest) :=
    match t with
    | String "-" r => (-1, r)
    | String "+" r => (1, r)
    | _ => (1, t)
    end in
  match digits rest None with
  | Some n => to_double (sign * n)
  | None => NaN
  end.

End ParseInt.

(** ** [String(n)] *)

Section NumberToString.

(** Whether the decimal integer [x] denotes the double [a]. *)
Definition reads_as (a x : Z) : bool :=
  match to_double x with
  | Int d => d =? a
  | _ => false
  end.

(** The digits of Number::toString for a double [a > 0] of [n] decimal
    digits: the integer [s] of [k] digits with [s * 10^(n-k)] denoting [a],
    [k] least and then [s * 10^(n-k)] nearest to [a] (the even [s] of two
    equally near), tried from [k] on.  When the [k] digits round up to
    [10^k], the digits are [1] and the magnitude is one more. *)
Fixpoint shortest (fuel : nat) (a n k : Z) : Z * Z * Z :=
  match fuel with
  | O => (a, n, n)
  | S fuel =>
      let p := 10 ^ (n - k) in
      let lo := a / p in
      let r := a mod p in
      let s := if (p <? 2 * r) || ((2 * r =? p) && Z.odd lo) then lo + 1 else lo in
      if reads_as a (s * p) then
        if s =? 10 ^ k then (1, 1, n + 1) else (s, k, n)
      else shortest fuel a n (k + 1)
  end.

Fixpoint zeros (n : nat) : string :=
  match n with
  | O => EmptyString
  | S n => String "0" (zeros n)
  end.

(** [String(z)] for the number [z], an integer: the shortest digits that
    denote the same double, followed by zeros up to the magnitude; in
    exponent notation from 10^21 on. *)
Definition number_to_string (z : Z) : string :=
  match to_double z with
  | NaN => "NaN"
  | Infinity negative => if negative then "-Infinity" else "Infinity"
  | Int d =>
      if d =? 0 then "0"
      else
        let a := Z.abs d in
        let n := Z.of_nat (String.length (pretty a)) in
        let '(s, k, n) := shortest (Z.to_nat n) a n 1 in
        let sign := if d <? 0 then "-" else EmptyString in
        let text :=
          if n <=? 21 then pretty s +:+ zeros (Z.to_nat (n - k))
          else
            match pretty s with
            | String first rest =>
                String first
                  (if 1 <? k then "." +:+ rest else EmptyString)
                +:+ "e+" +:+ pretty (n - 1)
            | EmptyString => EmptyString
            end in
        sign +:+ text
  end.

End NumberToString.

(** ** JSON values read as [unknown] *)

Module Json.

(** A parsed JSON document.  A number is given by what the code can observe
    of it: whether it is falsy (a zero) and its [String(_)]. *)
#[warnings="-register-all"]
Inductive value :=
| JNull
| JBool (b : bool)
| JNumber (falsy : bool) (text : string)
| JString (s : string)
| JArray (items : list value)
| JObject (members : list (string * value)).

(** Truthiness, as [||] tests it. *)
Definition truthy (v : value) : bool :=
  match v with
  | JNull => false
  | JBool b => b
  | JNumber falsy _ => negb falsy
  | JString s => negb (String.eqb s EmptyString)
  | JArray _ | JObject _ => true
  end.

(** The own property [key] of a parsed object: of members that repeat a
    key, [JSON.parse] keeps the last. *)
Fixpoint member_of (key : string) (members : list (string * value)) : option value :=
  match members with
  | [] => None
  | (k, v) :: rest =>
      match member_of key rest with
      | Some w => Some w
      | None => if String.eqb k key then Some v else None
      end
  end.

(** [v.key] on a value that is not [null]: a member of an object,
    [undefined] on anything else (none of the keys the client reads is a
    property of a string, number, boolean or array). *)
Definition member (v : value) (key : string) : option value :=
  match v with
  | JObject members => member_of key members
  | _ => None
  end.

(** [a || 'literal'] *)
Definition or_literal (a : option value) (literal : string) : value :=
  match a with
  | Some v => if truthy v then v else JString literal
  | None => JString literal
  end.

(** [a || b] *)
Definition or_else (a b : option value) : option value :=
  match a with
  | Some v => if truthy v then a else b
  | None => b
  end.

(** [ToString(v)], which the [Error] constructor applies to its message;
    [None] when it throws a [TypeError].  An array joins its elements with
    commas, [null] elements as the empty text; a parsed object prints as
    [[object Object]] unless it has a member [toString] of its own, which
    is never callable and leaves the conversion without a primitive. *)
Fixpoint to_string (v : value) : option string :=
  match v with
  | JNull => Some "null"
  | JBool true => Some "true"
  | JBool false => Some "false"
  | JNumber _ text => Some text
  | JString s => Some s
  | JArray items =>
      (fix join (l : list value) : option string :=
         match l with
         | [] => Some EmptyString
         | x :: rest =>
             match (match x with JNull => Some EmptyString | _ => to_string x end),
                   rest with
             | Some a, [] => Some a
             | Some a, _ :: _ =>
                 match join rest with
                 | Some b => Some (a +:+ "," +:+ b)
                 | None => None
                 end
             | None, _ => None
             end
         end) items
  | JObject members =>
      match member_of "toString" members with
      | Some _ => None
      | None => Some "[object Object]"
      end
  end.

End Json.

Coercion Json.JString : string >-> Json.value.

(** ** utils/errors.ts: the error classes *)

Module Errors.

(** The class of an error object, with the fields a subclass adds. *)
Inductive Class :=
| SnowflakeApiErrorC
| RateLimitErrorC (retryAfterSeconds : number)
| AuthenticationErrorC
| StatementErrorC (statementHandle : option Json.value)
| TimeoutErrorC (statementHandle : option Json.value)
| NotFoundErrorC
| ValidationErrorC (details : gmap string (list string)).

(** The fields every [SnowflakeApiError] carries.  [message] is the text
    the [Error] constructor made of its argument; [code], [sqlState] and the
    statement handle are declared strings and hold whatever value the reply
    body had there. *)
Record SnowflakeApiError := {
  class : Class;
  message : string;
  statusCode : option Z;
  code : Json.value;
  retryable : bool;
  sqlState : option Json.value;
}.

(** [super(message, statusCode, code, retryable, sqlState)]; [retryable]
    has the default [false], which callers below pass explicitly. *)
Definition base (c : Class) (message : string) (statusCode : option Z)
    (code : option Json.value) (retryable : bool)
    (sqlState : option Json.value) : SnowflakeApiError :=
  {| class := c;
     message := message;
     statusCode := statusCode;
     code := Json.or_literal code "SNOWFLAKE_ERROR";
     retryable := retryable;
     sqlState := sqlState |}.

Definition new_SnowflakeApiError (message : string) (statusCode : option Z)
    (code : option Json.value) : SnowflakeApiError :=
  base SnowflakeApiErrorC message statusCode code false None.

Definition new_RateLimitError (message : string) (retryAfterSeconds : number)
  : SnowflakeApiError :=
  base (RateLimitErrorC retryAfterSeconds) message (Some 429)
       (Some (Json.JString "RATE_LIMIT_EXCEEDED")) true None.

Definition new_AuthenticationError (message : string) : SnowflakeApiError :=
  base AuthenticationErrorC message (Some 401)
       (Some (Json.JString "AUTHENTICATION_FAILED")) false None.

Definition new_StatementError (message : string)
    (statementHandle sqlState code : option Json.value) : SnowflakeApiError :=
  base (StatementErrorC statementHandle) message (Some 422)
       (Some (Json.or_literal code "STATEMENT_ERROR")) false sqlState.

Definition new_TimeoutError (message : string)
    (statementHandle : option Json.value) : SnowflakeApiError :=
  base (TimeoutErrorC statementHandle) message (Some 408)
       (Some (Json.JString "EXECUTION_TIMEOUT")) true None.

Definition new_NotFoundError (entityType identifier : string)
  : SnowflakeApiError :=
  base NotFoundErrorC (entityType +:+ " '" +:+ identifier +:+ "' not found")
       (Some 404) (Some (Json.JString "NOT_FOUND")) false None.

(** The statement handle an error carries, if its class has one. *)
Definition statementHandle (e : SnowflakeApiError) : option Json.value :=
  match class e with
  | StatementErrorC h | TimeoutErrorC h => h
  | _ => None
  end.

Definition retryAfterSeconds (e : SnowflakeApiError) : option number :=
  match class e with
  | RateLimitErrorC n => Some n
  | _ => None
  end.

End Errors.

(** ** Thrown values and results *)

(** Why the engine raised a [TypeError]: a property was read of [null], or
    a value had no primitive to convert to. *)
Inductive TypeErrorCause :=
| ReadOfNull (property : string)
| NotPrimitive.

(** What a function of the adapter can throw: an error of the taxonomy, a
    plain [Error] with its message, the [SyntaxError] of a body that is
    not JSON, or a [TypeError] of the engine. *)
Inductive Thrown :=
| ApiError (e : Errors.SnowflakeApiError)
| PlainError (message : string)
| SyntaxError
| TypeError (cause : TypeErrorCause).

Inductive Result (A : Type) :=
| Ok (a : A)
| Throw (e : Thrown).

Arguments Ok {A} a.
Arguments Throw {A} e.

(** Sequencing of calls that may throw ([x ← r; k] below). *)
#[global] Instance Result_bind : MBind Result := fun A B k r =>
  match r with
  | Ok a => k a
  | Throw e => Throw e
  end.

#[global] Instance Result_ret : MRet Result := fun A a => Ok a.

(** [v.key], which throws when [v] is [null]. *)
Definition get (v : Json.value) (key : string) : Result (option Json.value) :=
  match v with
  | Json.JNull => Throw (TypeError (ReadOfNull key))
  | _ => Ok (Json.member v key)
  end.

(** The message text of [new Error(v)]. *)
Definition to_text (v : Json.value) : Result string :=
  match Json.to_string v with
  | Some text => Ok text
  | None => Throw (TypeError NotPrimitive)
  end.

(** ** types/env.ts: tenant credentials *)

Module Env.

Record TenantCredentials := {
  account : string;
  token : string;
  warehouse : option string;
  database : option string;
  schema : option string;
  role : option string;
}.

(** The inbound request, as far as it is read: [request.headers.get]. *)
Record Request := { headers_get : string -> option string }.

(** [h || undefined] *)
Definition or_undefined (h : option string) : option string :=
  if truthy h then h else None.

Definition parseTenantCredentials (request : Request) : TenantCredentials :=
  {| account := or_default (headers_get request "X-Snowflake-Account") EmptyString;
     token := or_default (headers_get request "X-Snowflake-Token") EmptyString;
     warehouse := or_undefined (headers_get request "X-Snowflake-Warehouse");
     database := or_undefined (headers_get request "X-Snowflake-Database");
     schema := or_undefined (headers_get request "X-Snowflake-Schema");
     role := or_undefined (headers_get request "X-Snowflake-Role") |}.

Definition missing_account : string :=
  "Missing X-Snowflake-Account header. Provide your Snowflake account identifier.".

Definition missing_token : string :=
  "Missing X-Snowflake-Token header. Provide your JWT token for authentication.".

Definition validateCredentials (credentials : TenantCredentials) : Result unit :=
  if String.eqb (account credentials) EmptyString then Throw (PlainError missing_account)
  else if String.eqb (token credentials) EmptyString then Throw (PlainError missing_token)
  else Ok tt.

(** Credential extraction as the worker's fetch handler performs it:
    parse, then validate, then use the parsed value. *)
Definition extractCredentials (request : Request) : Result TenantCredentials :=
  let credentials := parseTenantCredentials request in
  _ ← validateCredentials credentials;
  Ok credentials.

End Env.

(** ** types/entities.ts: data structures *)

Record PaginatedResponse (T : Type) := {
  items : list T;
  count : Z;
  total : option Z;
  hasMore : bool;
  nextPartition : option Z;
}.

Arguments items {T} _.
Arguments count {T} _.
Arguments total {T} _.
Arguments hasMore {T} _.
Arguments nextPartition {T} _.

Module BindVariable.
Record t := { type : string; value : string }.
End BindVariable.

Module StatementRequest.
Record t := {
  statement : string;
  timeout : option Z;
  database : option string;
  schema : option string;
  warehouse : option string;
  role : option string;
  bindings : option (gmap string BindVariable.t);
  parameters : option (gmap string string);
}.
End StatementRequest.

Module PartitionInfo.
Record t := {
  rowCount : Z;
  uncompressedSize : option Z;
  compressedSize : option Z;
}.
End PartitionInfo.

Module ColumnMetaData.
Record t := {
  name : string;
  type : string;
  database : option string;
  schema : option string;
  table : option string;
  nullable : bool;
  byteLength : option Z;
  precision : option Z;
  scale : option Z;
  collation : option string;
}.
End ColumnMetaData.

Module ResultSetMetaData.
Record t := {
  numRows : Z;
  format : option string;
  partitionInfo : option (list PartitionInfo.t);
  rowType : list ColumnMetaData.t;
}.
End ResultSetMetaData.

Module QueryStats.
Record t := {
  numRowsScanned : option Z;
  numRowsInserted : option Z;
  numRowsUpdated : option Z;
  numRowsDeleted : option Z;
  numDuplicateRowsUpdated : option Z;
  elapsedTimeMs : option Z;
}.
End QueryStats.

Module StatementResult.
Record t := {
  statementHandle : string;
  status : StatementStatus;
  resultSetMetaData : option ResultSetMetaData.t;
  data : option (list (list string));
  stats : option QueryStats.t;
  statementStatusUrl : option string;
  message : option string;
  sqlState : option string;
  code : option string;
}.
End StatementResult.

Module Database.
Record t := {
  name : string;
  createdOn : option string;
  origin : option string;
  owner : option string;
  comment : option string;
  options : option string;
  retentionTime : option string;
  resourceGroup : option string;
  kind : option string;
}.
End Database.

Module Schema.
Record t := {
  name : string;
  databaseName : option string;
  createdOn : option string;
  owner : option string;
  comment : option string;
  options : option string;
  retentionTime : option string;
}.
End Schema.

Module Table.
Record t := {
  name : string;
  databaseName : option string;
  schemaName : option string;
  kind : option string;
  createdOn : option string;
  owner : option string;
  comment : option string;
  clusterBy : option string;
  rows : option number;
  bytes : option number;
  retentionTime : option string;
  automaticClustering : option string;
  changeTracking : option string;
  isExternal : option string;
}.
End Table.

Module View.
Record t := {
  name : string;
  databaseName : option string;
  schemaName : option string;
  createdOn : option string;
  owner : option string;
  comment : option string;
  text : option string;
  isSecure : option string;
  isMaterialized : option string;
}.
End View.

Module Column.
Record t := {
  name : string;
  type : string;
  kind : option string;
  nullable : bool;
  default : option string;
  primaryKey : bool;
  uniqueKey : bool;
  check : option string;
  expression : option string;
  comment : option string;
  policyName : option string;
}.
End Column.

Module Warehouse.
Record t := {
  name : string;
  state : string;
  type : option string;
  size : option string;
  minClusterCount : option number;
  maxClusterCount : option number;
  startedClusters : option number;
  running : option number;
  queued : option number;
  isDefault : bool;
  isCurrent : bool;
  autoSuspend : option number;
  autoResume : bool;
  available : option string;
  provisioning : option string;
  quiescing : option string;
  other : option string;
  createdOn : option string;
  resumedOn : option string;
  updatedOn : option string;
  owner : option string;
  comment : option string;
  resourceMonitor : option string;
  scalingPolicy : option string;
}.
End Warehouse.

(** ** client.ts: the wire format and the transport *)

(** [SnowflakeStatementResponse], the body of a successful reply. *)
Module Raw.

Record RowTypeEntry := {
  name : string;
  type : string;
  database : option string;
  schema : option string;
  table : option string;
  nullable : option bool;
  byteLength : option Z;
  precision : option Z;
  scale : option Z;
  collation : option string;
}.

Record MetaData := {
  numRows : Z;
  format : option string;
  partitionInfo : option (list PartitionInfo.t);
  rowType : list RowTypeEntry;
}.

Record t := {
  statementHandle : string;
  statementStatusUrl : option string;
  message : option string;
  sqlState : option string;
  code : option string;
  resultSetMetaData : option MetaData;
  data : option (list (list string));
  stats : option QueryStats.t;
}.

End Raw.

Module Http.

(** The empty object [{}]. *)
Definition no_members : Json.value := Json.JObject [].

(** A response body: either text that is not JSON, or a JSON document,
    given as the value the error branches of [request] read ([unknown]) and
    by its reading at the type [T] that [response.json() as Promise<T>]
    asserts. *)
Inductive Body (T : Type) :=
| NotJson
| Json (document : Json.value) (value : T).

Arguments NotJson {T}.
Arguments Json {T} document value.

Record Response (T : Type) := {
  status : Z;
  retryAfter : option string;
  body : Body T;
}.

Arguments status {T} _.
Arguments retryAfter {T} _.
Arguments body {T} _.

(** [response.ok] *)
Definition ok {T} (response : Response T) : bool :=
  (200 <=? status response) && (status response <=? 299).

(** A member of the JSON object handed to [JSON.stringify]. *)
Inductive Value :=
| VString (s : string)
| VNumber (n : Z)
| VBindings (b : gmap string BindVariable.t)
| VParameters (p : gmap string string).

Record RequestInit := {
  method : option string;
  payload : option (gmap string Value);
}.

(** What [fetch] is called with.  The query parameters are kept as the
    record handed to [URLSearchParams]. *)
Record Outgoing := {
  url : string;
  queryParams : option (list (string * string));
  headers : list (string * string);
  init : RequestInit;
}.

End Http.

(** ** client.ts: row decoding helpers *)

Section Rows.

(** [map[key] = index] on the object literal [{}].  Assigning a number to
    [__proto__] runs the inherited setter, which ignores it; every other
    key becomes an own property. *)
Definition set_index (map : gmap string nat) (key : string) (index : nat)
  : gmap string nat :=
  if String.eqb key "__proto__" then map else <[key := index]> map.

(** [rowType.forEach((col, index) => ...)], from position [index] on. *)
Fixpoint buildColumnMap_from (index : nat) (rowType : list ColumnMetaData.t)
    (map : gmap string nat) : gmap string nat :=
  match rowType with
  | [] => map
  | col :: rest =>
      buildColumnMap_from (S index) rest
        (set_index map (toLowerCase (ColumnMetaData.name col)) index)
  end.

Definition buildColumnMap (rowType : list ColumnMetaData.t) : gmap string nat :=
  buildColumnMap_from 0 rowType ∅.

(** [columnMap.key ?? fallback] *)
Definition index_of (columnMap : gmap string nat) (key : string) (fallback : Z) : Z :=
  match columnMap !! key with
  | Some i => Z.of_nat i
  | None => fallback
  end.

(** [row[i]]: [undefined] for [-1] and past the end of the row. *)
Definition at_index (row : list string) (i : Z) : option string :=
  if i <? 0 then None else row !! Z.to_nat i.

(** [row[columnMap.key ?? fallback]] *)
Definition cell (columnMap : gmap string nat) (row : list string)
    (key : string) (fallback : Z) : option string :=
  at_index row (index_of columnMap key fallback).

(** [c ? parseInt(c, 10) : undefined] *)
Definition int_cell (c : option string) : option number :=
  match c with
  | Some s => if String.eqb s EmptyString then None else Some (parseInt10 s)
  | None => None
  end.

(** [c?.toLowerCase() === lit] *)
Definition is_text (c : option string) (lit : string) : bool :=
  match c with
  | Some s => String.eqb (toLowerCase s) lit
  | None => false
  end.

(** [{ items: [], count: 0, hasMore: false }] *)
Definition empty_page {T} : PaginatedResponse T :=
  {| items := []; count := 0; total := None; hasMore := false;
     nextPartition := None |}.

(** [{ items, count: items.length, total: numRows, hasMore: false }] *)
Definition page {T} (entities : list T) (md : ResultSetMetaData.t)
  : PaginatedResponse T :=
  {| items := entities;
     count := Z.of_nat (length entities);
     total := Some (ResultSetMetaData.numRows md);
     hasMore := false;
     nextPartition := None |}.

End Rows.

(** ** client.ts: result mapping *)

Section Mappers.

Definition mapStatementResponse (response : Raw.t) : StatementResult.t :=
  {| StatementResult.statementHandle := Raw.statementHandle response;
     StatementResult.status :=
       mapStatus (Raw.statementStatusUrl response) (Raw.message response);
     StatementResult.resultSetMetaData :=
       match Raw.resultSetMetaData response with
       | Some md =>
           Some {| ResultSetMetaData.numRows := Raw.numRows md;
                   ResultSetMetaData.format := Raw.format md;
                   ResultSetMetaData.partitionInfo := Raw.partitionInfo md;
                   ResultSetMetaData.rowType :=
                     map (fun col =>
                            {| ColumnMetaData.name := Raw.name col;
                               ColumnMetaData.type := Raw.type col;
                               ColumnMetaData.database := Raw.database col;
                               ColumnMetaData.schema := Raw.schema col;
                               ColumnMetaData.table := Raw.table col;
                               ColumnMetaData.nullable :=
                                 default true (Raw.nullable col);
                               ColumnMetaData.byteLength := Raw.byteLength col;
                               ColumnMetaData.precision := Raw.precision col;
                               ColumnMetaData.scale := Raw.scale col;
                               ColumnMetaData.collation := Raw.collation col |})
                         (Raw.rowType md) |}
       | None => None
       end;
     StatementResult.data := Raw.data response;
     StatementResult.stats := Raw.stats response;
     StatementResult.statementStatusUrl := Raw.statementStatusUrl response;
     StatementResult.message := Raw.message response;
     StatementResult.sqlState := Raw.sqlState response;
     StatementResult.code := Raw.code response |}.

Definition toDatabase (columnMap : gmap string nat) (row : list string)
  : Database.t :=
  {| Database.name := or_default (cell columnMap row "name" 0) EmptyString;
     Database.createdOn := cell columnMap row "created_on" 1;
     Database.origin := cell columnMap row "origin" (-1);
     Database.owner := cell columnMap row "owner" (-1);
     Database.comment := cell columnMap row "comment" (-1);
     Database.options := cell columnMap row "options" (-1);
     Database.retentionTime := cell columnMap row "retention_time" (-1);
     Database.resourceGroup := cell columnMap row "resource_group" (-1);
     Database.kind := cell columnMap row "kind" (-1) |}.

Definition mapShowResultToDatabases (result : StatementResult.t)
  : PaginatedResponse Database.t :=
  match StatementResult.data result, StatementResult.resultSetMetaData result with
  | Some data, Some md =>
      let columnMap := buildColumnMap (ResultSetMetaData.rowType md) in
      let databases := map (toDatabase columnMap) data in
      page databases md
  | _, _ => empty_page
  end.

Definition toSchema (database : string) (columnMap : gmap string nat)
    (row : list string) : Schema.t :=
  {| Schema.name := or_default (cell columnMap row "name" 0) EmptyString;
     Schema.databaseName := Some database;
     Schema.createdOn := cell columnMap row "created_on" (-1);
     Schema.owner := cell columnMap row "owner" (-1);
     Schema.comment := cell columnMap row "comment" (-1);
     Schema.options := cell columnMap row "options" (-1);
     Schema.retentionTime := cell columnMap row "retention_time" (-1) |}.

Definition mapShowResultToSchemas (result : StatementResult.t)
    (database : string) : PaginatedResponse Schema.t :=
  match StatementResult.data result, StatementResult.resultSetMetaData result with
  | Some data, Some md =>
      let columnMap := buildColumnMap (ResultSetMetaData.rowType md) in
      let schemas := map (toSchema database columnMap) data in
      page schemas md
  | _, _ => empty_page
  end.

Definition toTable (database schema : string) (columnMap : gmap string nat)
    (row : list string) : Table.t :=
  {| Table.name := or_default (cell columnMap row "name" 0) EmptyString;
     Table.databaseName := Some database;
     Table.schemaName := Some schema;
     Table.kind := cell columnMap row "kind" (-1);
     Table.createdOn := cell columnMap row "created_on" (-1);
     Table.owner := cell columnMap row "owner" (-1);
     Table.comment := cell columnMap row "comment" (-1);
     Table.clusterBy := cell columnMap row "cluster_by" (-1);
     Table.rows := int_cell (cell columnMap row "rows" (-1));
     Table.bytes := int_cell (cell columnMap row "bytes" (-1));
     Table.retentionTime := cell columnMap row "retention_time" (-1);
     Table.automaticClustering := cell columnMap row "automatic_clustering" (-1);
     Table.changeTracking := cell columnMap row "change_tracking" (-1);
     Table.isExternal := cell columnMap row "is_external" (-1) |}.

Definition mapShowResultToTables (result : StatementResult.t)
    (database schema : string) : PaginatedResponse Table.t :=
  match StatementResult.data result, StatementResult.resultSetMetaData result with
  | Some data, Some md =>
      let columnMap := buildColumnMap (ResultSetMetaData.rowType md) in
      let tables := map (toTable database schema columnMap) data in
      page tables md
  | _, _ => empty_page
  end.

Definition toView (database schema : string) (columnMap : gmap string nat)
    (row : list string) : View.t :=
  {| View.name := or_default (cell columnMap row "name" 0) EmptyString;
     View.databaseName := Some database;
     View.schemaName := Some schema;
     View.createdOn := cell columnMap row "created_on" (-1);
     View.owner := cell columnMap row "owner" (-1);
     View.comment := cell columnMap row "comment" (-1);
     View.text := cell columnMap row "text" (-1);
     View.isSecure := cell columnMap row "is_secure" (-1);
     View.isMaterialized := cell columnMap row "is_materialized" (-1) |}.

Definition mapShowResultToViews (result : StatementResult.t)
    (database schema : string) : PaginatedResponse View.t :=
  match StatementResult.data result, StatementResult.resultSetMetaData result with
  | Some data, Some md =>
      let columnMap := buildColumnMap (ResultSetMetaData.rowType md) in
      let views := map (toView database schema columnMap) data in
      page views md
  | _, _ => empty_page
  end.

Definition toColumn (columnMap : gmap string nat) (row : list string)
  : Column.t :=
  {| Column.name := or_default (cell columnMap row "name" 0) EmptyString;
     Column.type := or_default (cell columnMap row "type" 1) EmptyString;
     Column.kind := cell columnMap row "kind" (-1);
     Column.nullable := is_text (cell columnMap row "null" (-1)) "y";
     Column.default := cell columnMap row "default" (-1);
     Column.primaryKey := is_text (cell columnMap row "primary_key" (-1)) "y";
     Column.uniqueKey := is_text (cell columnMap row "unique_key" (-1)) "y";
     Column.check := cell columnMap row "check" (-1);
     Column.expression := cell columnMap row "expression" (-1);
     Column.comment := cell columnMap row "comment" (-1);
     Column.policyName := cell columnMap row "policy_name" (-1) |}.

Definition mapDescribeResultToColumns (result : StatementResult.t)
  : PaginatedResponse Column.t :=
  match StatementResult.data result, StatementResult.resultSetMetaData result with
  | Some data, Some md =>
      let columnMap := buildColumnMap (ResultSetMetaData.rowType md) in
      let columns := map (toColumn columnMap) data in
      page columns md
  | _, _ => empty_page
  end.

Definition toWarehouse (columnMap : gmap string nat) (row : list string)
  : Warehouse.t :=
  {| Warehouse.name := or_default (cell columnMap row "name" 0) EmptyString;
     Warehouse.state := or_default (cell columnMap row "state" 1) "SUSPENDED";
     Warehouse.type := cell columnMap row "type" (-1);
     Warehouse.size := cell columnMap row "size" (-1);
     Warehouse.minClusterCount :=
       int_cell (cell columnMap row "min_cluster_count" (-1));
     Warehouse.maxClusterCount :=
       int_cell (cell columnMap row "max_cluster_count" (-1));
     Warehouse.startedClusters :=
       int_cell (cell columnMap row "started_clusters" (-1));
     Warehouse.running := int_cell (cell columnMap row "running" (-1));
     Warehouse.queued := int_cell (cell columnMap row "queued" (-1));
     Warehouse.isDefault := is_text (cell columnMap row "is_default" (-1)) "y";
     Warehouse.isCurrent := is_text (cell columnMap row "is_current" (-1)) "y";
     Warehouse.autoSuspend := int_cell (cell columnMap row "auto_suspend" (-1));
     Warehouse.autoResume :=
       is_text (cell columnMap row "auto_resume" (-1)) "true";
     Warehouse.available := cell columnMap row "available" (-1);
     Warehouse.provisioning := cell columnMap row "provisioning" (-1);
     Warehouse.quiescing := cell columnMap row "quiescing" (-1);
     Warehouse.other := cell columnMap row "other" (-1);
     Warehouse.createdOn := cell columnMap row "created_on" (-1);
     Warehouse.resumedOn := cell columnMap row "resumed_on" (-1);
     Warehouse.updatedOn := cell columnMap row "updated_on" (-1);
     Warehouse.owner := cell columnMap row "owner" (-1);
     Warehouse.comment := cell columnMap row "comment" (-1);
     Warehouse.resourceMonitor := cell columnMap row "resource_monitor" (-1);
     Warehouse.scalingPolicy := cell columnMap row "scaling_policy" (-1) |}.

Definition mapShowResultToWarehouses (result : StatementResult.t)
  : PaginatedResponse Warehouse.t :=
  match StatementResult.data result, StatementResult.resultSetMetaData result with
  | Some data, Some md =>
      let columnMap := buildColumnMap (ResultSetMetaData.rowType md) in
      let warehouses := map (toWarehouse columnMap) data in
      page warehouses md
  | _, _ => empty_page
  end.

End Mappers.

(** ** client.ts: the client ([SnowflakeClientImpl]) *)

Section Client.

(** [this.credentials], and the network as the client sees it: the reply
    [fetch] resolves to for a given call. *)
Variable credentials : Env.TenantCredentials.
Variable fetch : Http.Outgoing -> Http.Response Raw.t.

Definition baseUrl : string :=
  "https://" +:+ Env.account credentials +:+ ".snowflakecomputing.com/api/v2".

Definition getAuthHeaders : list (string * string) :=
  [ ("Authorization", "Bearer " +:+ Env.token credentials);
    ("Content-Type", "application/json");
    ("Accept", "application/json");
    ("X-Snowflake-Authorization-Token-Type", "KEYPAIR_JWT");
    ("User-Agent", "primrose-mcp-snowflake/1.0.0") ].

(** [response.json().catch(() => ({}))] *)
Definition json_or_empty (b : Http.Body Raw.t) : Json.value :=
  match b with
  | Http.Json document _ => document
  | Http.NotJson => Http.no_members
  end.

(** The message of the last branch: the default, replaced inside the
    [try] by [errorJson.message || errorJson.error || message]; reading a
    member of [null] throws there and is caught. *)
Definition generic_message (b : Http.Body Raw.t) (message : string) : Json.value :=
  match b with
  | Http.Json Json.JNull _ => Json.JString message
  | Http.Json errorJson _ =>
      Json.or_literal
        (Json.or_else (Json.member errorJson "message")
                      (Json.member errorJson "error"))
        message
  | Http.NotJson => Json.JString message
  end.

(** The status classification of [request], on the reply received.  The
    arguments of an error are read first, then the error is constructed,
    which converts its message to text. *)
Definition classify (response : Http.Response Raw.t) : Result Raw.t :=
  if Http.status response =? 429 then
    let retryAfter := Http.retryAfter response in
    Throw (ApiError (Errors.new_RateLimitError "Rate limit exceeded"
      (match retryAfter with
       | Some h => if String.eqb h EmptyString then Int 60 else parseInt10 h
       | None => Int 60
       end)))
  else if (Http.status response =? 401) || (Http.status response =? 403) then
    Throw (ApiError (Errors.new_AuthenticationError
      "Authentication failed. Check your Snowflake account and JWT token."))
  else if Http.status response =? 408 then
    let body := json_or_empty (Http.body response) in
    message ← get body "message";
    statementHandle ← get body "statementHandle";
    text ← to_text (Json.or_literal message "Statement execution timed out");
    Throw (ApiError (Errors.new_TimeoutError text statementHandle))
  else if Http.status response =? 422 then
    let body := json_or_empty (Http.body response) in
    message ← get body "message";
    statementHandle ← get body "statementHandle";
    sqlState ← get body "sqlState";
    code ← get body "code";
    text ← to_text (Json.or_literal message "Statement execution failed");
    Throw (ApiError (Errors.new_StatementError text statementHandle sqlState code))
  else if negb (Http.ok response) then
    let message := "Snowflake API error: " +:+ pretty (Http.status response) in
    let message := generic_message (Http.body response) message in
    text ← to_text message;
    Throw (ApiError (Errors.new_SnowflakeApiError text
      (Some (Http.status response)) None))
  else
    match Http.body response with
    | Http.Json _ value => Ok value
    | Http.NotJson => Throw SyntaxError
    end.

(** What [request] hands to [fetch]. *)
Definition outgoing (endpoint : string) (options : Http.RequestInit)
    (queryParams : option (list (string * string))) : Http.Outgoing :=
  {| Http.url := baseUrl +:+ endpoint;
     Http.queryParams := queryParams;
     Http.headers := getAuthHeaders;
     Http.init := options |}.

Definition request (endpoint : string) (options : Http.RequestInit)
    (queryParams : option (list (string * string))) : Result Raw.t :=
  let response := fetch (outgoing endpoint options queryParams) in
  classify response.

(** [request.timeout || 60] *)
Definition timeout_or_default (timeout : option Z) : Z :=
  match timeout with
  | Some t => if t =? 0 then 60 else t
  | None => 60
  end.

(** [if (explicit || fallback) body.key = explicit || fallback] *)
Definition set_context (key : string) (explicit fallback : option string)
    (body : gmap string Http.Value) : gmap string Http.Value :=
  match or_else explicit fallback with
  | Some v => if String.eqb v EmptyString then body else <[key := Http.VString v]> body
  | None => body
  end.

(** The object [body] that [executeStatement] and [executeStatementAsync]
    build, by the same statements, before it is serialised. *)
Definition statementBody (request : StatementRequest.t) : gmap string Http.Value :=
  let body : gmap string Http.Value :=
    {[ "statement" := Http.VString (StatementRequest.statement request);
       "timeout" :=
         Http.VNumber (timeout_or_default (StatementRequest.timeout request)) ]} in
  let body := set_context "database" (StatementRequest.database request)
                (Env.database credentials) body in
  let body := set_context "schema" (StatementRequest.schema request)
                (Env.schema credentials) body in
  let body := set_context "warehouse" (StatementRequest.warehouse request)
                (Env.warehouse credentials) body in
  let body := set_context "role" (StatementRequest.role request)
                (Env.role credentials) body in
  let body :=
    match StatementRequest.bindings request with
    | Some b => <["bindings" := Http.VBindings b]> body
    | None => body
    end in
  match StatementRequest.parameters request with
  | Some p => <["parameters" := Http.VParameters p]> body
  | None => body
  end.

Definition executeStatement (req : StatementRequest.t) : Result StatementResult.t :=
  response ← request "/statements"
    {| Http.method := Some "POST"; Http.payload := Some (statementBody req) |}
    None;
  Ok (mapStatementResponse response).

Definition executeStatementAsync (req : StatementRequest.t)
  : Result StatementResult.t :=
  response ← request "/statements"
    {| Http.method := Some "POST"; Http.payload := Some (statementBody req) |}
    (Some [("async", "true")]);
  Ok (mapStatementResponse response).

(** A request that gives only the statement text and the timeout. *)
Definition statement_with_timeout (statement : string) (timeout : Z)
  : StatementRequest.t :=
  {| StatementRequest.statement := statement;
     StatementRequest.timeout := Some timeout;
     StatementRequest.database := None;
     StatementRequest.schema := None;
     StatementRequest.warehouse := None;
     StatementRequest.role := None;
     StatementRequest.bindings := None;
     StatementRequest.parameters := None |}.

(** The double quote character, and an identifier between double quotes. *)
Definition dquote : string := String (ascii_of_nat 34) EmptyString.

Definition quoted (identifier : string) : string :=
  dquote +:+ identifier +:+ dquote.

Definition listDatabases : Result (PaginatedResponse Database.t) :=
  result ← executeStatement (statement_with_timeout "SHOW DATABASES" 30);
  Ok (mapShowResultToDatabases result).

Definition listSchemas (database : string)
  : Result (PaginatedResponse Schema.t) :=
  result ← executeStatement
    (statement_with_timeout ("SHOW SCHEMAS IN DATABASE " +:+ quoted database) 30);
  Ok (mapShowResultToSchemas result database).

Definition listTables (database schema : string)
  : Result (PaginatedResponse Table.t) :=
  result ← executeStatement
    (statement_with_timeout
       ("SHOW TABLES IN " +:+ quoted database +:+ "." +:+ quoted schema) 30);
  Ok (mapShowResultToTables result database schema).

Definition listViews (database schema : string)
  : Result (PaginatedResponse View.t) :=
  result ← executeStatement
    (statement_with_timeout
       ("SHOW VIEWS IN " +:+ quoted database +:+ "." +:+ quoted schema) 30);
  Ok (mapShowResultToViews result database schema).

Definition describeTable (database schema table : string)
  : Result (PaginatedResponse Column.t) :=
  result ← executeStatement
    (statement_with_timeout
       ("DESCRIBE TABLE " +:+ quoted database +:+ "." +:+ quoted schema
        +:+ "." +:+ quoted table) 30);
  Ok (mapDescribeResultToColumns result).

Definition listWarehouses : Result (PaginatedResponse Warehouse.t) :=
  result ← executeStatement (statement_with_timeout "SHOW WAREHOUSES" 30);
  Ok (mapShowResultToWarehouses result).

Definition getWarehouseStatus (warehouseName : string) : Result Warehouse.t :=
  result ← executeStatement
    (statement_with_timeout ("SHOW WAREHOUSES LIKE '" +:+ warehouseName +:+ "'") 30);
  let warehouses := mapShowResultToWarehouses result in
  match items warehouses with
  | [] =>
      Throw (ApiError (Errors.new_SnowflakeApiError
        ("Warehouse '" +:+ warehouseName +:+ "' not found")
        (Some 404) (Some (Json.JString "NOT_FOUND"))))
  | first :: _ => Ok first
  end.

End Client.

(** ** client.ts: the remaining operations of the client *)

(** [{ success, message }], the acknowledgement of a cancel, resume or
    suspend. *)
Module Ack.
Record t := { success : bool; message : string }.
End Ack.

(** The answer of [testConnection].  [account] is declared a string; it is
    the second cell of the first row, which a short row leaves undefined. *)
Module ConnectionTest.
Record t := {
  connected : bool;
  message : string;
  account : option string;
}.
End ConnectionTest.

(** A caught value of type [unknown], as the helpers that receive one tell
    it apart: something the adapter threw (always an [Error]), or a value
    that is not an [Error], given by its [String(_)]. *)
Inductive Unknown :=
| Caught (t : Thrown)
| NotAnError (text : string).

Section CaughtErrors.

(** The message the engine gives the [SyntaxError] of a body that is not
    JSON. *)
Variable syntaxErrorMessage : string.

(** The message of a [TypeError], as V8 (the engine of the worker) words
    it. *)
Definition type_error_message (cause : TypeErrorCause) : string :=
  match cause with
  | ReadOfNull property =>
      "Cannot read properties of null (reading '" +:+ property +:+ "')"
  | NotPrimitive => "Cannot convert object to primitive value"
  end.

(** [error.message] *)
Definition error_message (t : Thrown) : string :=
  match t with
  | ApiError e => Errors.message e
  | PlainError message => message
  | SyntaxError => syntaxErrorMessage
  | TypeError cause => type_error_message cause
  end.

(** utils/errors.ts *)
Definition isRetryableError (error : Unknown) : bool :=
  match error with
  | Caught (ApiError e) => Errors.retryable e
  | Caught t =>
      includes (error_message t) "network"
      || includes (error_message t) "timeout"
      || includes (error_message t) "ECONNRESET"
  | NotAnError _ => false
  end.

End CaughtErrors.

Section ClientOperations.

Variable credentials : Env.TenantCredentials.
Variable fetch : Http.Outgoing -> Http.Response Raw.t.
Variable syntaxErrorMessage : string.

(** The default [options = {}] of [request]. *)
Definition no_options : Http.RequestInit :=
  {| Http.method := None; Http.payload := None |}.

Definition getStatementStatus (statementHandle : string)
  : Result StatementResult.t :=
  response ← request credentials fetch ("/statements/" +:+ statementHandle)
    no_options None;
  Ok (mapStatementResponse response).

Definition getStatementResult (statementHandle : string) (partition : option Z)
  : Result StatementResult.t :=
  let queryParams : list (string * string) :=
    match partition with
    | Some p => [("partition", number_to_string p)]
    | None => []
    end in
  response ← request credentials fetch ("/statements/" +:+ statementHandle)
    no_options
    (if (0 <? length queryParams)%nat then Some queryParams else None);
  Ok (mapStatementResponse response).

Definition cancelStatement (statementHandle : string) : Result Ack.t :=
  _ ← request credentials fetch
    ("/statements/" +:+ statementHandle +:+ "/cancel")
    {| Http.method := Some "POST"; Http.payload := None |} None;
  Ok {| Ack.success := true;
        Ack.message :=
          "Statement " +:+ statementHandle +:+ " cancelled successfully" |}.

Definition resumeWarehouse (warehouseName : string) : Result Ack.t :=
  _ ← executeStatement credentials fetch
    (statement_with_timeout
       ("ALTER WAREHOUSE " +:+ quoted warehouseName +:+ " RESUME") 60);
  Ok {| Ack.success := true;
        Ack.message :=
          "Warehouse '" +:+ warehouseName +:+ "' resumed successfully" |}.

Definition suspendWarehouse (warehouseName : string) : Result Ack.t :=
  _ ← executeStatement credentials fetch
    (statement_with_timeout
       ("ALTER WAREHOUSE " +:+ quoted warehouseName +:+ " SUSPEND") 60);
  Ok {| Ack.success := true;
        Ack.message :=
          "Warehouse '" +:+ warehouseName +:+ "' suspended successfully" |}.

(** [result.status === 'success'] *)
Definition is_success (status : StatementStatus) : bool :=
  match status with
  | success => true
  | _ => false
  end.

(** A cell inside a template literal: [undefined] prints as its name. *)
Definition interpolated (cell : option string) : string :=
  match cell with
  | Some s => s
  | None => "undefined"
  end.

(** The request [testConnection] sends: the statement, timeout 30, and the
    credentials' own context given explicitly. *)
Definition connection_probe : StatementRequest.t :=
  {| StatementRequest.statement :=
       "SELECT CURRENT_USER(), CURRENT_ACCOUNT(), CURRENT_ROLE()";
     StatementRequest.timeout := Some 30;
     StatementRequest.database := Env.database credentials;
     StatementRequest.schema := Env.schema credentials;
     StatementRequest.warehouse := Env.warehouse credentials;
     StatementRequest.role := Env.role credentials;
     StatementRequest.bindings := None;
     StatementRequest.parameters := None |}.

Definition testConnection : ConnectionTest.t :=
  match executeStatement credentials fetch connection_probe with
  | Ok result =>
      match is_success (StatementResult.status result),
            StatementResult.data result with
      | true, Some (row :: _) =>
          let user := row !! 0%nat in
          let account := row !! 1%nat in
          let role := row !! 2%nat in
          {| ConnectionTest.connected := true;
             ConnectionTest.message :=
               "Connected as " +:+ interpolated user +:+ " with role "
               +:+ interpolated role;
             ConnectionTest.account := account |}
      | _, _ =>
          {| ConnectionTest.connected := false;
             ConnectionTest.message :=
               "Connection test returned unexpected response";
             ConnectionTest.account := Some (Env.account credentials) |}
      end
  | Throw error =>
      {| ConnectionTest.connected := false;
         ConnectionTest.message := error_message syntaxErrorMessage error;
         ConnectionTest.account := Some (Env.account credentials) |}
  end.

End ClientOperations.

(** ** types/env.ts: numeric configuration *)

Module Config.

(** The worker's environment: four text variables and three optional
    bindings, of which only the presence matters here. *)
Record Env := {
  CHARACTER_LIMIT : string;
  DEFAULT_PAGE_SIZE : string;
  MAX_PAGE_SIZE : string;
  DEFAULT_TIMEOUT : string;
  CACHE_KV : option unit;
  MCP_SESSIONS : option unit;
  AI : option unit;
}.

(** [keyof Env] *)
Inductive Key :=
| KCHARACTER_LIMIT
| KDEFAULT_PAGE_SIZE
| KMAX_PAGE_SIZE
| KDEFAULT_TIMEOUT
| KCACHE_KV
| KMCP_SESSIONS
| KAI.

(** [env[key]] when [typeof] it is ['string']. *)
Definition text_of (env : Env) (key : Key) : option string :=
  match key with
  | KCHARACTER_LIMIT => Some (CHARACTER_LIMIT env)
  | KDEFAULT_PAGE_SIZE => Some (DEFAULT_PAGE_SIZE env)
  | KMAX_PAGE_SIZE => Some (MAX_PAGE_SIZE env)
  | KDEFAULT_TIMEOUT => Some (DEFAULT_TIMEOUT env)
  | KCACHE_KV | KMCP_SESSIONS | KAI => None
  end.

Definition getEnvNumber (env : Env) (key : Key) (defaultValue : number) : number :=
  match text_of env key with
  | Some value =>
      match parseInt10 value with
      | NaN => defaultValue
      | parsed => parsed
      end
  | None => defaultValue
  end.

Definition getCharacterLimit (env : Env) : number :=
  getEnvNumber env KCHARACTER_LIMIT (Int 50000).

Definition getDefaultPageSize (env : Env) : number :=
  getEnvNumber env KDEFAULT_PAGE_SIZE (Int 20).

Definition getMaxPageSize (env : Env) : number :=
  getEnvNumber env KMAX_PAGE_SIZE (Int 100).

Definition getDefaultTimeout (env : Env) : number :=
  getEnvNumber env KDEFAULT_TIMEOUT (Int 60).

End Config.

(** ** index.ts: the worker's fetch handler *)

Module Worker.

(** The inbound request: the path of its URL, its method and its headers. *)
Record Incoming := {
  pathname : string;
  method : string;
  request : Env.Request;
}.

(** What the handler answers: one of its own responses, or the answer of
    the MCP handler built for the given credentials. *)
Inductive Answer :=
| Health
| Unauthorized (message : string)
| Delegated (credentials : Env.TenantCredentials)
| SseUnavailable
| Documentation.

(** The status of the handler's own responses ([new Response] without a
    status is 200). *)
Definition status (a : Answer) : option Z :=
  match a with
  | Health => Some 200
  | Unauthorized _ => Some 401
  | Delegated _ => None
  | SseUnavailable => Some 501
  | Documentation => Some 200
  end.

Definition fetch (syntaxErrorMessage : string) (incoming : Incoming) : Answer :=
  if String.eqb (pathname incoming) "/health" then Health
  else if String.eqb (pathname incoming) "/mcp"
          && String.eqb (method incoming) "POST" then
    let credentials := Env.parseTenantCredentials (request incoming) in
    match Env.validateCredentials credentials with
    | Throw error => Unauthorized (error_message syntaxErrorMessage error)
    | Ok _ => Delegated credentials
    end
  else if String.eqb (pathname incoming) "/sse" then SseUnavailable
  else Documentation.

End Worker.

(** ** Statements of the specification, in its own words *)

(** The status inference as the specification words it: a status URL that
    is present decides for [running] before the message is looked at. *)
Definition specified_status (statusUrl message : option string) : StatementStatus :=
  if truthy statusUrl then running
  else if message_includes message "failed" || message_includes message "error"
  then failed_with_error
  else success.

(** A list command returns partition 0; a further partition exists when
    [partitionInfo] lists more than one. *)
Definition further_partition_exists (md : ResultSetMetaData.t) : bool :=
  match ResultSetMetaData.partitionInfo md with
  | Some partitions => (1 <? length partitions)%nat
  | None => false
  end.

(** The page a list command returns for a result that carries [data] and
    [md]: one item per row, counted, with the total of the metadata, and no
    further page announced. *)
Definition paged {T} (p : PaginatedResponse T) (data : list (list string))
    (md : ResultSetMetaData.t) : Prop :=
  count p = Z.of_nat (length (items p))
  /\ length (items p) = length data
  /\ total p = Some (ResultSetMetaData.numRows md)
  /\ hasMore p = false
  /\ nextPartition p = None.

(** An index that selects no cell of the row. *)
Definition outside (row : list string) (i : Z) : Prop :=
  i < 0 \/ Z.of_nat (length row) <= i.

(** A header, or a field, that is present and not empty. *)
Definition present (h : option string) : Prop :=
  exists v, h = Some v /\ v <> EmptyString.

(** The last position of [rowType] whose column name is [key] up to case. *)
Fixpoint last_named (key : string) (rowType : list ColumnMetaData.t) : option nat :=
  match rowType with
  | [] => None
  | col :: rest =>
      match last_named key rest with
      | Some j => Some (S j)
      | None =>
          if String.eqb (toLowerCase (ColumnMetaData.name col)) key
          then Some 0%nat else None
      end
  end.

(** How a context field of the request body follows the request and the
    credentials: the request's value when it is given and not empty,
    otherwise the credentials' default when it is given and not empty,
    otherwise no member at all. *)
Definition context_field (body : gmap string Http.Value) (key : string)
    (explicit fallback : option string) : Prop :=
  (forall v, explicit = Some v -> v <> EmptyString ->
     body !! key = Some (Http.VString v))
  /\ (truthy explicit = false ->
      forall d, fallback = Some d -> d <> EmptyString ->
        body !! key = Some (Http.VString d))
  /\ (truthy explicit = false -> truthy fallback = false -> body !! key = None).

(** An optional field of an entity: text, or a number parsed from text. *)
Inductive Field (E : Type) :=
| Text (field : E -> option string)
| Number (field : E -> option number).

Arguments Text {E} field.
Arguments Number {E} field.

Definition undefined {E} (f : Field E) (entity : E) : Prop :=
  match f with
  | Text field => field entity = None
  | Number field => field entity = None
  end.

(** The optional fields of each entity, each with the column name it is
    looked up by and its fallback position. *)
Definition Database_fields : list (string * Z * Field Database.t) :=
  [ ("created_on", 1, Text Database.createdOn);
    ("origin", -1, Text Database.origin);
    ("owner", -1, Text Database.owner);
    ("comment", -1, Text Database.comment);
    ("options", -1, Text Database.options);
    ("retention_time", -1, Text Database.retentionTime);
    ("resource_group", -1, Text Database.resourceGroup);
    ("kind", -1, Text Database.kind) ].

Definition Schema_fields : list (string * Z * Field Schema.t) :=
  [ ("created_on", -1, Text Schema.createdOn);
    ("owner", -1, Text Schema.owner);
    ("comment", -1, Text Schema.comment);
    ("options", -1, Text Schema.options);
    ("retention_time", -1, Text Schema.retentionTime) ].

Definition Table_fields : list (string * Z * Field Table.t) :=
  [ ("kind", -1, Text Table.kind);
    ("created_on", -1, Text Table.createdOn);
    ("owner", -1, Text Table.owner);
    ("comment", -1, Text Table.comment);
    ("cluster_by", -1, Text Table.clusterBy);
    ("rows", -1, Number Table.rows);
    ("bytes", -1, Number Table.bytes);
    ("retention_time", -1, Text Table.retentionTime);
    ("automatic_clustering", -1, Text Table.automaticClustering);
    ("change_tracking", -1, Text Table.changeTracking);
    ("is_external", -1, Text Table.isExternal) ].

Definition View_fields : list (string * Z * Field View.t) :=
  [ ("created_on", -1, Text View.createdOn);
    ("owner", -1, Text View.owner);
    ("comment", -1, Text View.comment);
    ("text", -1, Text View.text);
    ("is_secure", -1, Text View.isSecure);
    ("is_materialized", -1, Text View.isMaterialized) ].

Definition Column_fields : list (string * Z * Field Column.t) :=
  [ ("kind", -1, Text Column.kind);
    ("default", -1, Text Column.default);
    ("check", -1, Text Column.check);
    ("expression", -1, Text Column.expression);
    ("comment", -1, Text Column.comment);
    ("policy_name", -1, Text Column.policyName) ].

Definition Warehouse_fields : list (string * Z * Field Warehouse.t) :=
  [ ("type", -1, Text Warehouse.type);
    ("size", -1, Text Warehouse.size);
    ("min_cluster_count", -1, Number Warehouse.minClusterCount);
    ("max_cluster_count", -1, Number Warehouse.maxClusterCount);
    ("started_clusters", -1, Number Warehouse.startedClusters);
    ("running", -1, Number Warehouse.running);
    ("queued", -1, Number Warehouse.queued);
    ("auto_suspend", -1, Number Warehouse.autoSuspend);
    ("available", -1, Text Warehouse.available);
    ("provisioning", -1, Text Warehouse.provisioning);
    ("quiescing", -1, Text Warehouse.quiescing);
    ("other", -1, Text Warehouse.other);
    ("created_on", -1, Text Warehouse.createdOn);
    ("resumed_on", -1, Text Warehouse.resumedOn);
    ("updated_on", -1, Text Warehouse.updatedOn);
    ("owner", -1, Text Warehouse.owner);
    ("comment", -1, Text Warehouse.comment);
    ("resource_monitor", -1, Text Warehouse.resourceMonitor);
    ("scaling_policy", -1, Text Warehouse.scalingPolicy) ].

(** A listed field is undefined once its index selects no cell of the row. *)
Definition undefined_outside {E} (columnMap : gmap string nat)
    (row : list string) (entity : E) (entry : string * Z * Field E) : Prop :=
  let '(key, fallback, f) := entry in
  outside row (index_of columnMap key fallback) -> undefined f entity.

(** A reply body as the casts of the error branches of [request] take it:
    no JSON at all, or a JSON object whose [message] and [error], where
    present, are strings. *)
Definition expected_error_body (b : Http.Body Raw.t) : Prop :=
  match b with
  | Http.NotJson => True
  | Http.Json (Json.JObject members) _ =>
      forall key v, key = "message" \/ key = "error" ->
        Json.member_of key members = Some v -> exists s, v = Json.JString s
  | Http.Json _ _ => False
  end.

(** The seconds of a [Retry-After] header: 60 when it is absent or empty. *)
Definition seconds_of (retryAfter : option string) : number :=
  match retryAfter with
  | Some h => if String.eqb h EmptyString then Int 60 else parseInt10 h
  | None => Int 60
  end.

(** The member [key] of a reply body that is a JSON object. *)
Definition carried (b : Http.Body Raw.t) (key : string) : option Json.value :=
  match b with
  | Http.Json (Json.JObject members) _ => Json.member_of key members
  | _ => None
  end.

(** ** Sample inputs *)

Module Sample.

Definition credentials : Env.TenantCredentials :=
  {| Env.account := "acme"; Env.token := "jwt";
     Env.warehouse := Some "WH_DEFAULT"; Env.database := None;
     Env.schema := None; Env.role := None |}.

Definition post : Http.RequestInit :=
  {| Http.method := Some "POST"; Http.payload := None |}.

(** A network that answers every call with the same reply. *)
Definition always (reply : Http.Response Raw.t)
  : Http.Outgoing -> Http.Response Raw.t :=
  fun _ => reply.

(** Status 429 with [Retry-After: 30]. *)
Definition rate_limited : Http.Response Raw.t :=
  {| Http.status := 429; Http.retryAfter := Some "30"; Http.body := Http.NotJson |}.

Definition column (name : string) : Raw.RowTypeEntry :=
  {| Raw.name := name; Raw.type := "text"; Raw.database := None;
     Raw.schema := None; Raw.table := None; Raw.nullable := None;
     Raw.byteLength := None; Raw.precision := None; Raw.scale := None;
     Raw.collation := None |}.

Definition partition (rowCount : Z) : PartitionInfo.t :=
  {| PartitionInfo.rowCount := rowCount;
     PartitionInfo.uncompressedSize := None;
     PartitionInfo.compressedSize := None |}.

(** A successful reply with the given columns, rows and partitions. *)
Definition rows_reply (columns : list string) (numRows : Z)
    (partitions : option (list PartitionInfo.t)) (data : list (list string))
  : Raw.t :=
  {| Raw.statementHandle := "01b2-0000";
     Raw.statementStatusUrl := None;
     Raw.message := Some "Statement executed successfully.";
     Raw.sqlState := Some "00000";
     Raw.code := Some "090001";
     Raw.resultSetMetaData :=
       Some {| Raw.numRows := numRows; Raw.format := Some "jsonv2";
               Raw.partitionInfo := partitions;
               Raw.rowType := map column columns |};
     Raw.data := Some data;
     Raw.stats := None |}.

Definition ok_reply (value : Raw.t) : Http.Response Raw.t :=
  {| Http.status := 200; Http.retryAfter := None;
     Http.body := Http.Json Http.no_members value |}.

(** SHOW DATABASES answered with two rows of a result in two partitions. *)
Definition two_partitions : Raw.t :=
  rows_reply ["created_on"; "name"] 5 (Some [partition 2; partition 3])
    [["2024-01-01"; "SALES"]; ["2024-01-02"; "HR"]].

(** SHOW WAREHOUSES answered with one suspended warehouse. *)
Definition one_warehouse : Raw.t :=
  rows_reply ["name"; "state"; "size"; "running"; "queued"] 1 None
    [["WH_XS"; "SUSPENDED"; "XSMALL"; "0"; "0"]].

(** A column descriptor with the given name. *)
Definition named (name : string) : ColumnMetaData.t :=
  {| ColumnMetaData.name := name; ColumnMetaData.type := "text";
     ColumnMetaData.database := None; ColumnMetaData.schema := None;
     ColumnMetaData.table := None; ColumnMetaData.nullable := true;
     ColumnMetaData.byteLength := None; ColumnMetaData.precision := None;
     ColumnMetaData.scale := None; ColumnMetaData.collation := None |}.

(** SHOW WAREHOUSES answered with a name column only. *)
Definition name_only : Raw.t :=
  rows_reply ["name"] 1 None [["WH_XS"]].

(** SHOW WAREHOUSES LIKE answered with no row. *)
Definition no_match : Raw.t :=
  rows_reply ["name"; "state"] 0 None [].

(** Inbound headers with the two required values and nothing else, and
    with the token alone. *)
Definition required_headers : Env.Request :=
  {| Env.headers_get := fun name =>
       if String.eqb name "X-Snowflake-Account" then Some "acme"
       else if String.eqb name "X-Snowflake-Token" then Some "jwt"
       else None |}.

Definition token_only : Env.Request :=
  {| Env.headers_get := fun name =>
       if String.eqb name "X-Snowflake-Token" then Some "jwt" else None |}.

(** A reply without rows and without metadata. *)
Definition no_rows : Raw.t :=
  {| Raw.statementHandle := "01b2-0001";
     Raw.statementStatusUrl := None;
     Raw.message := None;
     Raw.sqlState := None;
     Raw.code := None;
     Raw.resultSetMetaData := None;
     Raw.data := None;
     Raw.stats := None |}.

(** A request with a context of its own, and one with timeout 0. *)
Definition select_in (database : string) : StatementRequest.t :=
  {| StatementRequest.statement := "SELECT 1";
     StatementRequest.timeout := Some 45;
     StatementRequest.database := Some database;
     StatementRequest.schema := None;
     StatementRequest.warehouse := None;
     StatementRequest.role := None;
     StatementRequest.bindings := None;
     StatementRequest.parameters := None |}.

Definition select_timeout_0 : StatementRequest.t :=
  {| StatementRequest.statement := "SELECT 1";
     StatementRequest.timeout := Some 0;
     StatementRequest.database := None;
     StatementRequest.schema := None;
     StatementRequest.warehouse := None;
     StatementRequest.role := None;
     StatementRequest.bindings := None;
     StatementRequest.parameters := None |}.

(** The metadata of the statement result a reply maps to. *)
Definition metadata (reply : Raw.t) : ResultSetMetaData.t :=
  match StatementResult.resultSetMetaData (mapStatementResponse reply) with
  | Some md => md
  | None =>
      {| ResultSetMetaData.numRows := 0; ResultSetMetaData.format := None;
         ResultSetMetaData.partitionInfo := None;
         ResultSetMetaData.rowType := [] |}
  end.

End Sample.

(** ** Further sample inputs *)

Module Fixture.

(** Status 403, and status 422 with a body that has an empty vendor code. *)
Definition forbidden : Http.Response Raw.t :=
  {| Http.status := 403; Http.retryAfter := None; Http.body := Http.NotJson |}.

Definition unprocessable : Http.Response Raw.t :=
  {| Http.status := 422; Http.retryAfter := None;
     Http.body :=
       Http.Json
         (Json.JObject
            [("message", Json.JString EmptyString);
             ("statementHandle", Json.JString "01b2-0002");
             ("sqlState", Json.JString "42000");
             ("code", Json.JString EmptyString)])
         Sample.no_rows |}.

(** Status 408 and status 422 with the JSON body [null]. *)
Definition timeout_null : Http.Response Raw.t :=
  {| Http.status := 408; Http.retryAfter := None;
     Http.body := Http.Json Json.JNull Sample.no_rows |}.

Definition unprocessable_null : Http.Response Raw.t :=
  {| Http.status := 422; Http.retryAfter := None;
     Http.body := Http.Json Json.JNull Sample.no_rows |}.

(** Status 408 with a body that is not JSON, and with a body that names
    the statement. *)
Definition timeout_no_body : Http.Response Raw.t :=
  {| Http.status := 408; Http.retryAfter := None; Http.body := Http.NotJson |}.

Definition timed_out : Http.Response Raw.t :=
  {| Http.status := 408; Http.retryAfter := None;
     Http.body :=
       Http.Json
         (Json.JObject
            [("message", Json.JString "Statement reached its timeout");
             ("statementHandle", Json.JString "01b2-0001")])
         Sample.no_rows |}.

(** Status 500 with the JSON body [null], and with a body whose message is
    an empty array. *)
Definition unavailable_null : Http.Response Raw.t :=
  {| Http.status := 500; Http.retryAfter := None;
     Http.body := Http.Json Json.JNull Sample.no_rows |}.

Definition unavailable_empty_list : Http.Response Raw.t :=
  {| Http.status := 500; Http.retryAfter := None;
     Http.body :=
       Http.Json (Json.JObject [("message", Json.JArray [])]) Sample.no_rows |}.

(** Status 200 with a body that is not JSON. *)
Definition empty_body : Http.Response Raw.t :=
  {| Http.status := 200; Http.retryAfter := None; Http.body := Http.NotJson |}.

(** A 200 reply whose message reports an error. *)
Definition sql_error : Raw.t :=
  {| Raw.statementHandle := "01b2-0003";
     Raw.statementStatusUrl := None;
     Raw.message := Some "SQL execution error: warehouse not found";
     Raw.sqlState := None;
     Raw.code := None;
     Raw.resultSetMetaData := None;
     Raw.data := None;
     Raw.stats := None |}.

(** SELECT CURRENT_USER(), ... answered. *)
Definition who_am_i : Raw.t :=
  Sample.rows_reply ["CURRENT_USER()"; "CURRENT_ACCOUNT()"; "CURRENT_ROLE()"]
    1 None [["ALICE"; "ACME"; "ANALYST"]].

(** The same rows under column names in another letter case. *)
Definition warehouse_upper : Raw.t :=
  Sample.rows_reply ["NAME"; "STATE"; "SIZE"; "RUNNING"; "QUEUED"] 1 None
    [["WH_XS"; "SUSPENDED"; "XSMALL"; "0"; "0"]].

Definition mcp_post : Worker.Incoming :=
  {| Worker.pathname := "/mcp"; Worker.method := "POST";
     Worker.request := Sample.required_headers |}.

Definition mcp_post_token_only : Worker.Incoming :=
  {| Worker.pathname := "/mcp"; Worker.method := "POST";
     Worker.request := Sample.token_only |}.

Definition mcp_get : Worker.Incoming :=
  {| Worker.pathname := "/mcp"; Worker.method := "GET";
     Worker.request := Sample.token_only |}.

Definition environment : Config.Env :=
  {| Config.CHARACTER_LIMIT := "25000";
     Config.DEFAULT_PAGE_SIZE := "twenty";
     Config.MAX_PAGE_SIZE := EmptyString;
     Config.DEFAULT_TIMEOUT := "45";
     Config.CACHE_KV := None;
     Config.MCP_SESSIONS := None;
     Config.AI := None |}.

End Fixture.

(** * Properties *)

(** ** Status inference *)

Lemma mapStatus_success_message statusUrl message :
  message_includes message "success" = true ->
  mapStatus statusUrl message = success.
Proof. intros H. unfold mapStatus. now rewrite H. Qed.

Lemma message_includes_truthy message sub :
  message_includes message sub = true -> sub <> EmptyString ->
  truthy message = true.
Proof.
  destruct message as [[|c m]|]; simpl; try discriminate; auto.
  destruct sub; [congruence | discriminate].
Qed.

(** C1 (as amended): a message whose lower-cased text contains "success"
    classifies as [success] whatever the status URL; every other pair is
    classified by the three-way precedence of the specification (non-empty
    status URL, then failure indicator, then success). *)
Theorem mapStatus_precedence (statusUrl message : option string) :
  mapStatus statusUrl message =
    if message_includes message "success" then success
    else specified_status statusUrl message.
Proof.
  unfold mapStatus, specified_status.
  destruct (message_includes message "success") eqn:Hs; simpl; [reflexivity|].
  destruct (truthy statusUrl) eqn:Hu; simpl; [reflexivity|].
  destruct (truthy message) eqn:Hm; simpl; [reflexivity|].
  destruct (message_includes message "failed") eqn:Hf.
  - apply message_includes_truthy in Hf; congruence.
  - destruct (message_includes message "error") eqn:He; [|reflexivity].
    apply message_includes_truthy in He; congruence.
Qed.

(** C1 (counterexample): with a status URL present and a message that
    reports success, the code answers [success] where the specification's
    precedence answers [running]. *)
Lemma mapStatus_status_url_does_not_win :
  truthy (Some "https://acme.snowflakecomputing.com/api/v2/statements/01b2") = true
  /\ mapStatus (Some "https://acme.snowflakecomputing.com/api/v2/statements/01b2")
               (Some "Statement executed successfully.") = success
  /\ specified_status (Some "https://acme.snowflakecomputing.com/api/v2/statements/01b2")
               (Some "Statement executed successfully.") = running
  /\ success <> running.
Proof. repeat split; discriminate. Qed.

(** ** Error taxonomy of [request] *)

Section RequestErrors.

Variable credentials : Env.TenantCredentials.
Variable fetch : Http.Outgoing -> Http.Response Raw.t.

Lemma get_Ok v key r :
  get v key = Ok r <-> v <> Json.JNull /\ r = Json.member v key.
Proof.
  unfold get. destruct v; split;
    first [ discriminate
          | intros [= <-]; split; [discriminate | reflexivity]
          | intros [H _]; contradiction
          | intros [_ ->]; reflexivity ].
Qed.

Lemma get_not_null v key : v <> Json.JNull -> get v key = Ok (Json.member v key).
Proof. intros H. now apply get_Ok. Qed.

Lemma get_throws v key t : get v key = Throw t -> t = TypeError (ReadOfNull key).
Proof. unfold get. destruct v; first [discriminate | now intros [= <-]]. Qed.

Lemma to_text_Ok v text : to_text v = Ok text <-> Json.to_string v = Some text.
Proof.
  unfold to_text. destruct (Json.to_string v); split;
    first [discriminate | now intros [= ->]].
Qed.

Lemma to_text_throws v t : to_text v = Throw t -> t = TypeError NotPrimitive.
Proof.
  unfold to_text. destruct (Json.to_string v); first [discriminate | now intros [= <-]].
Qed.

(** An error of the taxonomy thrown by a sequence of reads is thrown by
    what follows the reads. *)
Lemma after_get {A} v key (k : option Json.value -> Result A) e :
  (get v key ≫= k) = Throw (ApiError e) ->
  v <> Json.JNull /\ k (Json.member v key) = Throw (ApiError e).
Proof.
  destruct (get v key) as [r|t] eqn:E; simpl.
  - apply get_Ok in E as [Hv ->]. auto.
  - apply get_throws in E as ->. discriminate.
Qed.

Lemma after_to_text {A} v (k : string -> Result A) e :
  (to_text v ≫= k) = Throw (ApiError e) ->
  exists text, Json.to_string v = Some text /\ k text = Throw (ApiError e).
Proof.
  destruct (to_text v) as [text|t] eqn:E; simpl.
  - apply to_text_Ok in E. eauto.
  - apply to_text_throws in E as ->. discriminate.
Qed.

(** The error of the taxonomy a reply is answered with, branch by branch. *)
Lemma classify_api_error response e :
  classify response = Throw (ApiError e) ->
  let st := Http.status response in
  let body := json_or_empty (Http.body response) in
  (st = 429
   /\ e = Errors.new_RateLimitError "Rate limit exceeded"
            (seconds_of (Http.retryAfter response)))
  \/ ((st = 401 \/ st = 403)
      /\ e = Errors.new_AuthenticationError
               "Authentication failed. Check your Snowflake account and JWT token.")
  \/ (st = 408 /\ body <> Json.JNull
      /\ exists text,
           Json.to_string
             (Json.or_literal (Json.member body "message")
                "Statement execution timed out") = Some text
           /\ e = Errors.new_TimeoutError text (Json.member body "statementHandle"))
  \/ (st = 422 /\ body <> Json.JNull
      /\ exists text,
           Json.to_string
             (Json.or_literal (Json.member body "message")
                "Statement execution failed") = Some text
           /\ e = Errors.new_StatementError text
                    (Json.member body "statementHandle")
                    (Json.member body "sqlState") (Json.member body "code"))
  \/ (st <> 429 /\ st <> 401 /\ st <> 403 /\ st <> 408 /\ st <> 422
      /\ Http.ok response = false
      /\ exists text,
           Json.to_string
             (generic_message (Http.body response)
                ("Snowflake API error: " +:+ pretty st)) = Some text
           /\ e = Errors.new_SnowflakeApiError text (Some st) None).
Proof.
  intros H st body. unfold classify in H. fold st body in H.
  destruct (Z.eqb_spec st 429) as [E|N1].
  { injection H as <-. left. auto. }
  destruct (Z.eqb_spec st 401) as [E|N2]; simpl in H.
  { injection H as <-. right. left. auto. }
  destruct (Z.eqb_spec st 403) as [E|N3]; simpl in H.
  { injection H as <-. right. left. auto. }
  destruct (Z.eqb_spec st 408) as [E|N4].
  { apply after_get in H as [Hv H]. apply after_get in H as [_ H].
    apply after_to_text in H as (text & Ht & [= <-]).
    right. right. left. eauto. }
  destruct (Z.eqb_spec st 422) as [E|N5].
  { apply after_get in H as [Hv H]. apply after_get in H as [_ H].
    apply after_get in H as [_ H]. apply after_get in H as [_ H].
    apply after_to_text in H as (text & Ht & [= <-]).
    do 3 right. left. eauto. }
  destruct (Http.ok response) eqn:Hok; simpl in H.
  - destruct (Http.body response); discriminate.
  - apply after_to_text in H as (text & Ht & [= <-]).
    do 4 right. split_and!; eauto.
Qed.

(** On a body as the casts take it, the message of each branch is a text
    that is not empty, and reading the members does not throw. *)
Lemma expected_body_not_null b :
  expected_error_body b -> json_or_empty b <> Json.JNull.
Proof. destruct b as [|[] ?]; simpl; first [contradiction | discriminate]. Qed.

Lemma expected_body_member b key :
  expected_error_body b -> Json.member (json_or_empty b) key = carried b key.
Proof. destruct b as [|[] ?]; simpl; first [contradiction | reflexivity]. Qed.

Lemma expected_body_text b key literal :
  expected_error_body b -> key = "message" \/ key = "error" ->
  literal <> EmptyString ->
  exists text,
    Json.or_literal (carried b key) literal = Json.JString text
    /\ text <> EmptyString.
Proof.
  intros Hb Hkey Hl. unfold Json.or_literal.
  destruct (carried b key) as [v|] eqn:E; [|eauto].
  destruct b as [|[] ?]; simpl in Hb, E; try discriminate.
  destruct (Hb key v Hkey E) as (s & ->). simpl.
  destruct (String.eqb_spec s EmptyString); simpl; eauto.
Qed.

Lemma expected_body_generic b literal :
  expected_error_body b -> literal <> EmptyString ->
  exists text,
    generic_message b literal = Json.JString text /\ text <> EmptyString.
Proof.
  intros Hb Hl. destruct b as [|doc value]; [simpl; eauto|].
  destruct doc as [| | | | |members]; simpl in Hb; try contradiction.
  assert (forall r, Json.member_of "error" members = r ->
            exists text,
              Json.or_literal r literal = Json.JString text
              /\ text <> EmptyString) as Herror.
  { intros [r|] Er; [|simpl; eauto].
    destruct (Hb "error" r (or_intror eq_refl) Er) as (s' & ->).
    unfold Json.or_literal. simpl.
    destruct (String.eqb_spec s' EmptyString); simpl; eauto. }
  unfold generic_message, Json.member.
  destruct (Json.member_of "message" members) as [m|] eqn:Em.
  - destruct (Hb "message" m (or_introl eq_refl) Em) as (s & ->).
    unfold Json.or_else. simpl.
    destruct (String.eqb_spec s EmptyString) as [->|Hs]; simpl.
    + now apply Herror.
    + apply String.eqb_neq in Hs as Hs'. rewrite Hs'. simpl. eauto.
  - unfold Json.or_else. now apply Herror.
Qed.

Lemma classify_ok_value response members value :
  Http.ok response = true -> Http.body response = Http.Json members value ->
  classify response = Ok value.
Proof.
  unfold classify, Http.ok. intros Hok Hb.
  apply andb_true_iff in Hok as [H1 H2].
  apply Z.leb_le in H1. apply Z.leb_le in H2.
  repeat (match goal with |- context [?a =? ?b] =>
            destruct (Z.eqb_spec a b); [lia|] end).
  simpl.
  replace ((200 <=? Http.status response) && (Http.status response <=? 299))
    with true by (symmetry; apply andb_true_iff; split; apply Z.leb_le; lia).
  simpl. now rewrite Hb.
Qed.

End RequestErrors.

(** Closes the clause of a status other than the one at hand. *)
Ltac other_status := first [ intros [?|?]; lia | intros; lia ].

(** C2: a 408 reply and a 422 reply whose body is the JSON text [null] make
    [request] throw the engine's TypeError for reading [message] of [null],
    which is no error of the taxonomy ([response.json()] succeeds, so the
    [catch] that supplies [{}] does not run); the same body on a 500 reply,
    read inside a [try], gives the generic error, and a 408 reply whose
    body is not JSON gives the timeout error. *)
Theorem request_null_body_throws_type_error :
  request Sample.credentials (Sample.always Fixture.timeout_null)
          "/statements" Sample.post None
  = Throw (TypeError (ReadOfNull "message"))
  /\ request Sample.credentials (Sample.always Fixture.unprocessable_null)
             "/statements" Sample.post None
     = Throw (TypeError (ReadOfNull "message"))
  /\ request Sample.credentials (Sample.always Fixture.unavailable_null)
             "/statements" Sample.post None
     = Throw (ApiError (Errors.new_SnowflakeApiError
                          "Snowflake API error: 500" (Some 500) None))
  /\ request Sample.credentials (Sample.always Fixture.timeout_no_body)
             "/statements" Sample.post None
     = Throw (ApiError (Errors.new_TimeoutError
                          "Statement execution timed out" None)).
Proof. split_and!; reflexivity. Qed.

(** ** Pagination of the list commands *)

Lemma page_paged {T} (entities : list T) (data : list (list string))
    (md : ResultSetMetaData.t) :
  length entities = length data -> paged (page entities md) data md.
Proof. intros H. unfold paged, page; simpl. auto. Qed.

Section ListCommands.

Variable credentials : Env.TenantCredentials.
Variable fetch : Http.Outgoing -> Http.Response Raw.t.

Ltac after_statement H :=
  rewrite H; simpl; eexists; split; [reflexivity|].

Ltac mapped_page Hd Hm :=
  rewrite Hd, Hm; apply page_paged, length_map.

Lemma listDatabases_paged result data md :
  executeStatement credentials fetch
    (statement_with_timeout "SHOW DATABASES" 30) = Ok result ->
  StatementResult.data result = Some data ->
  StatementResult.resultSetMetaData result = Some md ->
  exists p, listDatabases credentials fetch = Ok p /\ paged p data md.
Proof.
  intros H Hd Hm. unfold listDatabases. after_statement H.
  unfold mapShowResultToDatabases. mapped_page Hd Hm.
Qed.

Lemma listSchemas_paged database result data md :
  executeStatement credentials fetch
    (statement_with_timeout ("SHOW SCHEMAS IN DATABASE " +:+ quoted database) 30)
    = Ok result ->
  StatementResult.data result = Some data ->
  StatementResult.resultSetMetaData result = Some md ->
  exists p, listSchemas credentials fetch database = Ok p /\ paged p data md.
Proof.
  intros H Hd Hm. unfold listSchemas. after_statement H.
  unfold mapShowResultToSchemas. mapped_page Hd Hm.
Qed.

Lemma listTables_paged database schema result data md :
  executeStatement credentials fetch
    (statement_with_timeout
       ("SHOW TABLES IN " +:+ quoted database +:+ "." +:+ quoted schema) 30)
    = Ok result ->
  StatementResult.data result = Some data ->
  StatementResult.resultSetMetaData result = Some md ->
  exists p, listTables credentials fetch database schema = Ok p
            /\ paged p data md.
Proof.
  intros H Hd Hm. unfold listTables. after_statement H.
  unfold mapShowResultToTables. mapped_page Hd Hm.
Qed.

Lemma listViews_paged database schema result data md :
  executeStatement credentials fetch
    (statement_with_timeout
       ("SHOW VIEWS IN " +:+ quoted database +:+ "." +:+ quoted schema) 30)
    = Ok result ->
  StatementResult.data result = Some data ->
  StatementResult.resultSetMetaData result = Some md ->
  exists p, listViews credentials fetch database schema = Ok p
            /\ paged p data md.
Proof.
  intros H Hd Hm. unfold listViews. after_statement H.
  unfold mapShowResultToViews. mapped_page Hd Hm.
Qed.

Lemma describeTable_paged database schema table result data md :
  executeStatement credentials fetch
    (statement_with_timeout
       ("DESCRIBE TABLE " +:+ quoted database +:+ "." +:+ quoted schema
        +:+ "." +:+ quoted table) 30) = Ok result ->
  StatementResult.data result = Some data ->
  StatementResult.resultSetMetaData result = Some md ->
  exists p, describeTable credentials fetch database schema table = Ok p
            /\ paged p data md.
Proof.
  intros H Hd Hm. unfold describeTable. after_statement H.
  unfold mapDescribeResultToColumns. mapped_page Hd Hm.
Qed.

Lemma listWarehouses_paged result data md :
  executeStatement credentials fetch
    (statement_with_timeout "SHOW WAREHOUSES" 30) = Ok result ->
  StatementResult.data result = Some data ->
  StatementResult.resultSetMetaData result = Some md ->
  exists p, listWarehouses credentials fetch = Ok p /\ paged p data md.
Proof.
  intros H Hd Hm. unfold listWarehouses. after_statement H.
  unfold mapShowResultToWarehouses. mapped_page Hd Hm.
Qed.

End ListCommands.

(** C3 (as amended): for each list operation whose statement result carries
    data and resultSetMetaData, the operation returns a page with
    [count = items.length], one item per data row, [total] equal to
    [numRows], and [hasMore] false (no next partition announced), whatever
    [partitionInfo] lists. *)
Theorem list_operations_paged
    (credentials : Env.TenantCredentials)
    (fetch : Http.Outgoing -> Http.Response Raw.t)
    (database schema table : string)
    (result : StatementResult.t) (data : list (list string))
    (md : ResultSetMetaData.t) :
  StatementResult.data result = Some data ->
  StatementResult.resultSetMetaData result = Some md ->
  (executeStatement credentials fetch
     (statement_with_timeout "SHOW DATABASES" 30) = Ok result ->
   exists p, listDatabases credentials fetch = Ok p /\ paged p data md)
  /\ (executeStatement credentials fetch
        (statement_with_timeout ("SHOW SCHEMAS IN DATABASE " +:+ quoted database) 30)
      = Ok result ->
      exists p, listSchemas credentials fetch database = Ok p /\ paged p data md)
  /\ (executeStatement credentials fetch
        (statement_with_timeout
           ("SHOW TABLES IN " +:+ quoted database +:+ "." +:+ quoted schema) 30)
      = Ok result ->
      exists p, listTables credentials fetch database schema = Ok p
                /\ paged p data md)
  /\ (executeStatement credentials fetch
        (statement_with_timeout
           ("SHOW VIEWS IN " +:+ quoted database +:+ "." +:+ quoted schema) 30)
      = Ok result ->
      exists p, listViews credentials fetch database schema = Ok p
                /\ paged p data md)
  /\ (executeStatement credentials fetch
        (statement_with_timeout
           ("DESCRIBE TABLE " +:+ quoted database +:+ "." +:+ quoted schema
            +:+ "." +:+ quoted table) 30) = Ok result ->
      exists p, describeTable credentials fetch database schema table = Ok p
                /\ paged p data md)
  /\ (executeStatement credentials fetch
        (statement_with_timeout "SHOW WAREHOUSES" 30) = Ok result ->
      exists p, listWarehouses credentials fetch = Ok p /\ paged p data md).
Proof.
  intros Hd Hm.
  repeat split; intros H.
  - eapply listDatabases_paged; eauto.
  - eapply listSchemas_paged; eauto.
  - eapply listTables_paged; eauto.
  - eapply listViews_paged; eauto.
  - eapply describeTable_paged; eauto.
  - eapply listWarehouses_paged; eauto.
Qed.

(** C3 (witness): SHOW DATABASES answered with two rows. *)
Lemma list_operations_paged_witness :
  exists p,
    listDatabases Sample.credentials
      (Sample.always (Sample.ok_reply Sample.two_partitions)) = Ok p
    /\ count p = 2 /\ total p = Some 5 /\ hasMore p = false.
Proof.
  destruct (list_operations_paged Sample.credentials
              (Sample.always (Sample.ok_reply Sample.two_partitions))
              "SALES" "PUBLIC" "ORDERS"
              (mapStatementResponse Sample.two_partitions)
              [["2024-01-01"; "SALES"]; ["2024-01-02"; "HR"]]
              (Sample.metadata Sample.two_partitions)
              eq_refl eq_refl) as (Hdb & _).
  destruct (Hdb eq_refl) as (p & Hp & Hc & Hl & Ht & Hh & _).
  exists p. split; [exact Hp|].
  split; [rewrite Hc, Hl; reflexivity|].
  split; [exact Ht | exact Hh].
Defined.

(** C3 (counterexample): SHOW DATABASES answered from a result in two
    partitions; a further partition exists, and the page says [hasMore]
    false. *)
Lemma hasMore_ignores_partitionInfo :
  executeStatement Sample.credentials
    (Sample.always (Sample.ok_reply Sample.two_partitions))
    (statement_with_timeout "SHOW DATABASES" 30)
  = Ok (mapStatementResponse Sample.two_partitions)
  /\ listDatabases Sample.credentials
       (Sample.always (Sample.ok_reply Sample.two_partitions))
     = Ok (mapShowResultToDatabases (mapStatementResponse Sample.two_partitions))
  /\ is_Some (StatementResult.data (mapStatementResponse Sample.two_partitions))
  /\ (further_partition_exists
        <$> StatementResult.resultSetMetaData
              (mapStatementResponse Sample.two_partitions)) = Some true
  /\ hasMore (mapShowResultToDatabases (mapStatementResponse Sample.two_partitions))
     = false.
Proof.
  split; [reflexivity|]. split; [reflexivity|].
  split; [eexists; reflexivity|]. split; reflexivity.
Qed.

(** ** Degenerate input *)

Lemma at_index_outside row i : outside row i -> at_index row i = None.
Proof.
  intros [Hneg | Hlen]; unfold at_index.
  - destruct (Z.ltb_spec i 0); [reflexivity | lia].
  - destruct (Z.ltb_spec i 0); [reflexivity |].
    apply lookup_ge_None. lia.
Qed.

Lemma cell_outside columnMap row key fallback :
  outside row (index_of columnMap key fallback) ->
  cell columnMap row key fallback = None.
Proof. apply at_index_outside. Qed.

Lemma int_cell_outside columnMap row key fallback :
  outside row (index_of columnMap key fallback) ->
  int_cell (cell columnMap row key fallback) = None.
Proof. intros H. now rewrite cell_outside. Qed.

Lemma mappers_empty_page result database schema :
  StatementResult.data result = None
  \/ StatementResult.resultSetMetaData result = None ->
  mapShowResultToDatabases result = empty_page
  /\ mapShowResultToSchemas result database = empty_page
  /\ mapShowResultToTables result database schema = empty_page
  /\ mapShowResultToViews result database schema = empty_page
  /\ mapDescribeResultToColumns result = empty_page
  /\ mapShowResultToWarehouses result = empty_page.
Proof.
  unfold mapShowResultToDatabases, mapShowResultToSchemas,
    mapShowResultToTables, mapShowResultToViews, mapDescribeResultToColumns,
    mapShowResultToWarehouses.
  intros [-> | ->]; [| destruct (StatementResult.data result)];
    repeat split; reflexivity.
Qed.

Ltac fields_outside :=
  repeat (apply Forall_cons; split;
          [ intros ?; simpl; (apply cell_outside || apply int_cell_outside);
            assumption |]);
  apply Forall_nil; exact I.

(** C4: a statement result without [data] or without [resultSetMetaData] is
    mapped by each of the six mappers to the empty page
    [{items: [], count: 0, hasMore: false}]; and for every row and column
    map, each optional field of each entity whose index (the named column's,
    or else the positional fallback) selects no cell of the row is
    undefined.  The mappers are total functions: no call of them throws. *)
Theorem mappers_total_on_degenerate_input
    (result : StatementResult.t) (database schema : string)
    (columnMap : gmap string nat) (row : list string) :
  (StatementResult.data result = None
   \/ StatementResult.resultSetMetaData result = None ->
   mapShowResultToDatabases result = empty_page
   /\ mapShowResultToSchemas result database = empty_page
   /\ mapShowResultToTables result database schema = empty_page
   /\ mapShowResultToViews result database schema = empty_page
   /\ mapDescribeResultToColumns result = empty_page
   /\ mapShowResultToWarehouses result = empty_page)
  /\ Forall (undefined_outside columnMap row (toDatabase columnMap row))
            Database_fields
  /\ Forall (undefined_outside columnMap row (toSchema database columnMap row))
            Schema_fields
  /\ Forall (undefined_outside columnMap row
               (toTable database schema columnMap row)) Table_fields
  /\ Forall (undefined_outside columnMap row
               (toView database schema columnMap row)) View_fields
  /\ Forall (undefined_outside columnMap row (toColumn columnMap row))
            Column_fields
  /\ Forall (undefined_outside columnMap row (toWarehouse columnMap row))
            Warehouse_fields.
Proof.
  split; [apply mappers_empty_page|].
  repeat split; fields_outside.
Qed.

(** C4 (witness): a reply without rows, and a row that stops before the
    fallback position of [created_on]. *)
Lemma mappers_total_on_degenerate_input_witness :
  mapDescribeResultToColumns (mapStatementResponse Sample.no_rows) = empty_page
  /\ Database.createdOn (toDatabase ∅ ["SALES"]) = None.
Proof.
  destruct (mappers_total_on_degenerate_input
              (mapStatementResponse Sample.no_rows) "DB" "PUBLIC" ∅ ["SALES"])
    as (Hempty & Hdb & _).
  split.
  - apply Hempty. left. reflexivity.
  - apply Forall_cons in Hdb as [Hcreated _].
    apply Hcreated. right. unfold index_of. rewrite lookup_empty. simpl. lia.
Defined.

(** ** The request body of a statement *)

Section StatementBody.

Variable credentials : Env.TenantCredentials.

Lemma or_else_falsy explicit fallback :
  truthy explicit = false -> or_else explicit fallback = fallback.
Proof. intros H. unfold or_else. now rewrite H. Qed.

Lemma set_context_lookup key explicit fallback body :
  body !! key = None ->
  context_field (set_context key explicit fallback body) key explicit fallback.
Proof.
  intros Hfresh. unfold context_field, set_context.
  repeat split.
  - intros v -> Hv. unfold or_else, truthy.
    destruct (String.eqb_spec v EmptyString); [contradiction|]. simpl.
    destruct (String.eqb_spec v EmptyString); [contradiction|].
    apply lookup_insert_eq.
  - intros He d -> Hd. rewrite or_else_falsy by exact He.
    destruct (String.eqb_spec d EmptyString); [contradiction|].
    apply lookup_insert_eq.
  - intros He Hf. rewrite or_else_falsy by exact He.
    destruct fallback as [d|]; [|exact Hfresh].
    simpl in Hf. destruct (String.eqb d EmptyString); [exact Hfresh | discriminate].
Qed.

Lemma set_context_other key key' explicit fallback body :
  key <> key' ->
  set_context key explicit fallback body !! key' = body !! key'.
Proof.
  intros Hne. unfold set_context.
  destruct (or_else explicit fallback) as [v|]; [|reflexivity].
  destruct (String.eqb v EmptyString); [reflexivity|].
  now apply lookup_insert_ne.
Qed.

End StatementBody.

Lemma context_field_ext body body' key explicit fallback :
  body' !! key = body !! key ->
  context_field body key explicit fallback ->
  context_field body' key explicit fallback.
Proof. unfold context_field. intros ->. auto. Qed.

(** Looking a key up in [statementBody]: the members added after the one
    looked for do not touch it. *)
Ltac skip_later_members :=
  repeat first
    [ rewrite lookup_insert_ne by discriminate
    | rewrite set_context_other by discriminate ].

Lemma statementBody_context credentials req :
  let body := statementBody credentials req in
  context_field body "database"
    (StatementRequest.database req) (Env.database credentials)
  /\ context_field body "schema"
       (StatementRequest.schema req) (Env.schema credentials)
  /\ context_field body "warehouse"
       (StatementRequest.warehouse req) (Env.warehouse credentials)
  /\ context_field body "role"
       (StatementRequest.role req) (Env.role credentials).
Proof.
  intros body.
  split; [|split; [|split]].
  all: eapply context_field_ext;
    [ subst body; unfold statementBody;
      destruct (StatementRequest.parameters req),
               (StatementRequest.bindings req);
      skip_later_members; reflexivity
    | apply set_context_lookup; skip_later_members;
      rewrite ?lookup_singleton_ne by discriminate; reflexivity ].
Qed.

Lemma statementBody_timeout credentials req :
  statementBody credentials req !! "timeout"
  = Some (Http.VNumber (timeout_or_default (StatementRequest.timeout req))).
Proof.
  unfold statementBody.
  destruct (StatementRequest.parameters req), (StatementRequest.bindings req);
    skip_later_members; apply lookup_singleton_eq.
Qed.

(** C5 (as amended): [executeStatement] and [executeStatementAsync] submit
    the same body; for each of database, schema, warehouse and role it holds
    the request's value when that is given and not empty, otherwise the
    credentials' default when that is given and not empty, otherwise no such
    member; its timeout is the request's timeout when that is given and not
    0, and 60 otherwise. *)
Theorem statement_body_context
    (credentials : Env.TenantCredentials) (req : StatementRequest.t) :
  let body := statementBody credentials req in
  let init := {| Http.method := Some "POST"; Http.payload := Some body |} in
  (forall fetch,
     executeStatement credentials fetch req
     = (response ← classify (fetch (outgoing credentials "/statements" init None));
        Ok (mapStatementResponse response)))
  /\ (forall fetch,
        executeStatementAsync credentials fetch req
        = (response ← classify (fetch (outgoing credentials "/statements" init
                                         (Some [("async", "true")])));
           Ok (mapStatementResponse response)))
  /\ context_field body "database"
       (StatementRequest.database req) (Env.database credentials)
  /\ context_field body "schema"
       (StatementRequest.schema req) (Env.schema credentials)
  /\ context_field body "warehouse"
       (StatementRequest.warehouse req) (Env.warehouse credentials)
  /\ context_field body "role"
       (StatementRequest.role req) (Env.role credentials)
  /\ (forall t, StatementRequest.timeout req = Some t -> t <> 0 ->
        body !! "timeout" = Some (Http.VNumber t))
  /\ (StatementRequest.timeout req = None \/ StatementRequest.timeout req = Some 0 ->
      body !! "timeout" = Some (Http.VNumber 60)).
Proof.
  intros body init.
  split; [reflexivity|]. split; [reflexivity|].
  destruct (statementBody_context credentials req) as (Hd & Hs & Hw & Hr).
  repeat (split; [assumption|]).
  subst body. rewrite statementBody_timeout. split.
  - intros t -> Ht. simpl. destruct (Z.eqb_spec t 0); [contradiction | reflexivity].
  - intros [-> | ->]; reflexivity.
Qed.

(** C5 (witness): a request that names its database, under credentials that
    default the warehouse. *)
Lemma statement_body_context_witness :
  statementBody Sample.credentials (Sample.select_in "SALES") !! "database"
    = Some (Http.VString "SALES")
  /\ statementBody Sample.credentials (Sample.select_in "SALES") !! "warehouse"
    = Some (Http.VString "WH_DEFAULT")
  /\ statementBody Sample.credentials (Sample.select_in "SALES") !! "role" = None
  /\ statementBody Sample.credentials (Sample.select_in "SALES") !! "timeout"
    = Some (Http.VNumber 45).
Proof.
  destruct (statement_body_context Sample.credentials (Sample.select_in "SALES"))
    as (_ & _ & (Hd & _) & _ & (_ & Hw & _) & (_ & _ & Hr) & Ht & _).
  split; [apply Hd; [reflexivity | discriminate]|].
  split; [apply Hw; [reflexivity | reflexivity | discriminate]|].
  split; [apply Hr; reflexivity|].
  apply Ht; [reflexivity | discriminate].
Defined.

(** C5 (counterexample): a request whose timeout is 0 is submitted with
    timeout 60, not with the request's timeout. *)
Lemma timeout_zero_is_replaced :
  StatementRequest.timeout Sample.select_timeout_0 = Some 0
  /\ statementBody Sample.credentials Sample.select_timeout_0 !! "timeout"
     = Some (Http.VNumber 60)
  /\ Http.VNumber 60 <> Http.VNumber 0.
Proof.
  split; [reflexivity|]. split; [|discriminate].
  rewrite statementBody_timeout. reflexivity.
Qed.

(** ** The column map *)

Section ColumnMap.

Lemma last_named_None key rowType :
  last_named key rowType = None
  <-> forall j col, rowType !! j = Some col -> toLowerCase (ColumnMetaData.name col) <> key.
Proof.
  induction rowType as [|col rest IH]; simpl.
  - split; [|reflexivity]. intros _ j c Hj. rewrite lookup_nil in Hj. discriminate.
  - destruct (last_named key rest) as [n|] eqn:E.
    + split; [discriminate|]. intros H. exfalso.
      assert (Hnone : Some n = None); [|discriminate].
      apply IH. intros j c Hj. exact (H (S j) c Hj).
    + destruct (String.eqb_spec (toLowerCase (ColumnMetaData.name col)) key) as [Heq|Hne].
      * split; [discriminate|]. intros H. exfalso. exact (H 0%nat col eq_refl Heq).
      * split; [|reflexivity]. intros _ [|j] c Hj; simpl in Hj.
        -- injection Hj as <-. exact Hne.
        -- exact (proj1 IH eq_refl j c Hj).
Qed.

Lemma last_named_Some key rowType i :
  last_named key rowType = Some i
  <-> (exists col, rowType !! i = Some col /\ toLowerCase (ColumnMetaData.name col) = key)
      /\ (forall j col, (i < j)%nat -> rowType !! j = Some col ->
            toLowerCase (ColumnMetaData.name col) <> key).
Proof.
  revert i. induction rowType as [|col rest IH]; intros i; simpl.
  - split; [discriminate|]. intros [(c & Hc & _) _].
    rewrite lookup_nil in Hc. discriminate.
  - destruct (last_named key rest) as [n|] eqn:E.
    + destruct (proj1 (IH n) eq_refl) as [(cn & Hcn & Hkn) Hlast].
      split.
      * intros [= <-]. split; [exists cn; auto|].
        intros [|j] c Hlt Hj; [lia|]. simpl in Hj.
        apply (Hlast j c); [lia | exact Hj].
      * intros [(c & Hc & Hk) Hafter]. destruct i as [|i'].
        -- exfalso. apply (Hafter (S n) cn); [lia | exact Hcn | exact Hkn].
        -- f_equal. assert (Hi : Some n = Some i'); [|congruence].
           apply IH. split; [exists c; auto|].
           intros j c' Hlt Hj. apply (Hafter (S j) c'); [lia | exact Hj].
    + pose proof (proj1 (last_named_None key rest) E) as Hnone.
      destruct (String.eqb_spec (toLowerCase (ColumnMetaData.name col)) key) as [Heq|Hne].
      * split.
        -- intros [= <-]. split; [exists col; auto|].
           intros [|j] c Hlt Hj; [lia|]. exact (Hnone j c Hj).
        -- intros [(c & Hc & Hk) _]. destruct i as [|i']; [reflexivity|].
           exfalso. exact (Hnone i' c Hc Hk).
      * split; [discriminate|]. intros [(c & Hc & Hk) _].
        destruct i as [|i']; simpl in Hc.
        -- injection Hc as <-. contradiction.
        -- exfalso. exact (Hnone i' c Hc Hk).
Qed.

Lemma set_index_lookup map key key' index :
  key' <> "__proto__" ->
  set_index map key index !! key'
  = if String.eqb key key' then Some index else map !! key'.
Proof.
  intros Hproto. unfold set_index.
  destruct (String.eqb_spec key key') as [<-|Hne].
  - destruct (String.eqb_spec key "__proto__"); [contradiction|].
    apply lookup_insert_eq.
  - destruct (String.eqb key "__proto__"); [reflexivity|].
    now apply lookup_insert_ne.
Qed.

Lemma buildColumnMap_from_lookup rowType start map key :
  key <> "__proto__" ->
  buildColumnMap_from start rowType map !! key
  = match last_named key rowType with
    | Some j => Some (start + j)%nat
    | None => map !! key
    end.
Proof.
  intros Hproto. revert start map.
  induction rowType as [|col rest IH]; intros start map; simpl; [reflexivity|].
  rewrite IH. destruct (last_named key rest) as [j|].
  - f_equal. lia.
  - rewrite set_index_lookup by exact Hproto.
    destruct (String.eqb (toLowerCase (ColumnMetaData.name col)) key); [f_equal; lia | reflexivity].
Qed.

Lemma buildColumnMap_last_named rowType key :
  key <> "__proto__" -> buildColumnMap rowType !! key = last_named key rowType.
Proof.
  intros Hproto. unfold buildColumnMap.
  rewrite buildColumnMap_from_lookup by exact Hproto.
  destruct (last_named key rowType); [reflexivity | apply lookup_empty].
Qed.

End ColumnMap.

(** C6 (as amended): the column map is keyed by lower-cased names, so that
    every casing of a column name is found under the one lower-cased key;
    the index found is the position of the last column of [rowType] whose
    name is that key up to case, hence the column's own position exactly
    when no later column has the same name up to case.  (The key
    [__proto__] is never stored.) *)
Theorem buildColumnMap_lookup
    (rowType : list ColumnMetaData.t) (key : string) (i : nat) :
  key <> "__proto__" ->
  (buildColumnMap rowType !! key = Some i
   <-> (exists col, rowType !! i = Some col
                    /\ toLowerCase (ColumnMetaData.name col) = key)
       /\ (forall j col, (i < j)%nat -> rowType !! j = Some col ->
             toLowerCase (ColumnMetaData.name col) <> key)).
Proof.
  intros Hproto. rewrite buildColumnMap_last_named by exact Hproto.
  apply last_named_Some.
Qed.

(** C6 (witness): the columns [Name] and [STATE]; the key [name] finds
    position 0. *)
Lemma buildColumnMap_lookup_witness :
  buildColumnMap [Sample.named "Name"; Sample.named "STATE"] !! "name" = Some 0%nat.
Proof.
  apply (buildColumnMap_lookup [Sample.named "Name"; Sample.named "STATE"]
           "name" 0%nat); [discriminate|].
  split.
  - exists (Sample.named "Name"). split; reflexivity.
  - intros [|[|[|j]]] col Hlt Hj; simpl in Hj; try lia; try discriminate.
    injection Hj as <-. discriminate.
Defined.

(** C6 (counterexample): two columns named alike up to case; the key finds
    the later one, not the position of the column [name]. *)
Lemma buildColumnMap_duplicate_names :
  [Sample.named "name"; Sample.named "NAME"] !! 0%nat = Some (Sample.named "name")
  /\ toLowerCase "Name" = toLowerCase (ColumnMetaData.name (Sample.named "name"))
  /\ buildColumnMap [Sample.named "name"; Sample.named "NAME"] !! toLowerCase "Name"
     = Some 1%nat
  /\ 1%nat <> 0%nat.
Proof.
  split; [reflexivity|]. split; [reflexivity|]. split; [|discriminate].
  rewrite buildColumnMap_last_named by discriminate. reflexivity.
Qed.

(** ** Warehouses *)

Lemma or_default_present a d v :
  a = Some v -> v <> EmptyString -> or_default a d = v.
Proof.
  intros -> Hv. simpl. destruct (String.eqb_spec v EmptyString); [contradiction | reflexivity].
Qed.

Lemma or_default_absent a d :
  a = None \/ a = Some EmptyString -> or_default a d = d.
Proof. intros [-> | ->]; reflexivity. Qed.

Lemma or_default_nonempty a d :
  d <> EmptyString -> or_default a d <> EmptyString.
Proof.
  intros Hd. destruct a as [s|]; simpl; [|exact Hd].
  destruct (String.eqb_spec s EmptyString); assumption.
Qed.

Lemma cell_named columnMap row key fallback i :
  columnMap !! key = Some i -> cell columnMap row key fallback = row !! i.
Proof.
  intros H. unfold cell, index_of, at_index. rewrite H.
  destruct (Z.ltb_spec (Z.of_nat i) 0); [lia|]. now rewrite Nat2Z.id.
Qed.

Lemma cell_fallback columnMap row key (fallback : nat) :
  columnMap !! key = None ->
  cell columnMap row key (Z.of_nat fallback) = row !! fallback.
Proof.
  intros H. unfold cell, index_of, at_index. rewrite H.
  destruct (Z.ltb_spec (Z.of_nat fallback) 0); [lia|]. now rewrite Nat2Z.id.
Qed.

(** C7: a SHOW WAREHOUSES result with the columns name, state, size,
    running, queued and the single row WH_XS, SUSPENDED, XSMALL, 0, 0 maps
    to exactly one warehouse, named WH_XS, in state SUSPENDED, with running
    and queued equal to the number 0 (present, not undefined). *)
Theorem show_warehouses_round_trip
    (result : StatementResult.t) (md : ResultSetMetaData.t) :
  StatementResult.resultSetMetaData result = Some md ->
  map ColumnMetaData.name (ResultSetMetaData.rowType md)
    = ["name"; "state"; "size"; "running"; "queued"] ->
  StatementResult.data result
    = Some [["WH_XS"; "SUSPENDED"; "XSMALL"; "0"; "0"]] ->
  exists w,
    items (mapShowResultToWarehouses result) = [w]
    /\ Warehouse.name w = "WH_XS"
    /\ Warehouse.state w = "SUSPENDED"
    /\ Warehouse.size w = Some "XSMALL"
    /\ Warehouse.running w = Some (Int 0)
    /\ Warehouse.queued w = Some (Int 0).
Proof.
  intros Hmd Hnames Hdata.
  unfold mapShowResultToWarehouses. rewrite Hdata, Hmd. simpl.
  eexists. split; [reflexivity|].
  destruct (ResultSetMetaData.rowType md) as [|c1 [|c2 [|c3 [|c4 [|c5 [|c6 rest]]]]]];
    try discriminate Hnames.
  injection Hnames as H1 H2 H3 H4 H5.
  assert (Hkey : forall key, key <> "__proto__" ->
            buildColumnMap [c1; c2; c3; c4; c5] !! key
            = last_named key (map Sample.named
                                ["name"; "state"; "size"; "running"; "queued"])).
  { intros key Hk. rewrite buildColumnMap_last_named by exact Hk.
    simpl. now rewrite H1, H2, H3, H4, H5. }
  simpl.
  rewrite (cell_named _ _ "name" _ 0%nat) by (now rewrite Hkey).
  rewrite (cell_named _ _ "state" _ 1%nat) by (now rewrite Hkey).
  rewrite (cell_named _ _ "size" _ 2%nat) by (now rewrite Hkey).
  rewrite (cell_named _ _ "running" _ 3%nat) by (now rewrite Hkey).
  rewrite (cell_named _ _ "queued" _ 4%nat) by (now rewrite Hkey).
  repeat split; reflexivity.
Qed.

(** C7 (witness): the reply of the specification's example, as mapped by
    [mapStatementResponse]. *)
Lemma show_warehouses_round_trip_witness :
  exists w,
    items (mapShowResultToWarehouses (mapStatementResponse Sample.one_warehouse))
      = [w]
    /\ Warehouse.running w = Some (Int 0)
    /\ Warehouse.queued w = Some (Int 0).
Proof.
  destruct (show_warehouses_round_trip
              (mapStatementResponse Sample.one_warehouse)
              (Sample.metadata Sample.one_warehouse)
              eq_refl eq_refl eq_refl)
    as (w & Hw & _ & _ & _ & Hr & Hq).
  exists w. split; [exact Hw|]. split; [exact Hr | exact Hq].
Defined.

(** C10: every warehouse that [mapShowResultToWarehouses] produces has a
    state that is not empty; the warehouse produced from a row whose state
    column is absent from the column map and whose cell at position 1 is
    missing or empty has state SUSPENDED, and its name is the empty string
    when the name column is absent and the cell at position 0 is missing or
    empty. *)
Theorem warehouse_state_never_empty (result : StatementResult.t) :
  (forall w, In w (items (mapShowResultToWarehouses result)) ->
     Warehouse.state w <> EmptyString)
  /\ (forall data md i row,
        StatementResult.data result = Some data ->
        StatementResult.resultSetMetaData result = Some md ->
        data !! i = Some row ->
        exists w,
          items (mapShowResultToWarehouses result) !! i = Some w
          /\ (buildColumnMap (ResultSetMetaData.rowType md) !! "state" = None ->
              row !! 1%nat = None \/ row !! 1%nat = Some EmptyString ->
              Warehouse.state w = "SUSPENDED")
          /\ (buildColumnMap (ResultSetMetaData.rowType md) !! "name" = None ->
              row !! 0%nat = None \/ row !! 0%nat = Some EmptyString ->
              Warehouse.name w = EmptyString)).
Proof.
  split.
  - intros w. unfold mapShowResultToWarehouses.
    destruct (StatementResult.data result) as [data|];
      [destruct (StatementResult.resultSetMetaData result) as [md|]|];
      simpl; try contradiction.
    intros Hin. apply in_map_iff in Hin as (row & <- & _).
    simpl. now apply or_default_nonempty.
  - intros data md i row Hd Hm Hrow.
    unfold mapShowResultToWarehouses. rewrite Hd, Hm. simpl.
    eexists. split; [rewrite list_lookup_fmap, Hrow; reflexivity|].
    split; intros Hcol Hcell; simpl.
    + rewrite (cell_fallback _ _ "state" 1%nat) by exact Hcol.
      now apply or_default_absent.
    + rewrite (cell_fallback _ _ "name" 0%nat) by exact Hcol.
      now apply or_default_absent.
Qed.

(** C10 (witness): a row with a name and nothing else. *)
Lemma warehouse_state_never_empty_witness :
  exists w,
    items (mapShowResultToWarehouses (mapStatementResponse Sample.name_only))
      !! 0%nat = Some w
    /\ Warehouse.state w = "SUSPENDED".
Proof.
  destruct (warehouse_state_never_empty (mapStatementResponse Sample.name_only))
    as [_ Hrow].
  destruct (Hrow [["WH_XS"]] (Sample.metadata Sample.name_only) 0%nat ["WH_XS"]
              eq_refl eq_refl eq_refl) as (w & Hw & Hstate & _).
  exists w. split; [exact Hw|].
  apply Hstate; [vm_compute; reflexivity | left; reflexivity].
Defined.

(** ** Credential extraction *)

Lemma truthy_present h : truthy h = true <-> present h.
Proof.
  unfold present. destruct h as [s|]; simpl.
  - destruct (String.eqb_spec s EmptyString) as [->|Hne]; simpl.
    + split; [discriminate|]. intros (v & [= <-] & Hv). contradiction.
    + split; [|reflexivity]. intros _. exists s. auto.
  - split; [discriminate|]. intros (v & Hv & _). discriminate.
Qed.

Lemma or_default_empty h :
  or_default h EmptyString = EmptyString <-> ~ present h.
Proof.
  rewrite <- truthy_present. destruct h as [s|]; simpl.
  - destruct (String.eqb_spec s EmptyString) as [->|Hne]; simpl.
    + split; [discriminate | reflexivity].
    + split; [contradiction|]. intros H. now elim H.
  - split; [discriminate | reflexivity].
Qed.

Section Extraction.

Variable request : Env.Request.

Let account := Env.headers_get request "X-Snowflake-Account".
Let token := Env.headers_get request "X-Snowflake-Token".

Lemma extract_cases :
  Env.extractCredentials request =
    if String.eqb (or_default account EmptyString) EmptyString
    then Throw (PlainError Env.missing_account)
    else if String.eqb (or_default token EmptyString) EmptyString
         then Throw (PlainError Env.missing_token)
         else Ok (Env.parseTenantCredentials request).
Proof.
  unfold Env.extractCredentials, Env.validateCredentials. simpl.
  fold account. fold token.
  destruct (String.eqb (or_default account EmptyString) EmptyString);
    [reflexivity|].
  destruct (String.eqb (or_default token EmptyString) EmptyString);
    reflexivity.
Qed.

Lemma extract_no_account :
  ~ present account ->
  Env.extractCredentials request = Throw (PlainError Env.missing_account).
Proof.
  intros H. rewrite extract_cases.
  apply or_default_empty in H. now rewrite H.
Qed.

Lemma extract_no_token :
  present account -> ~ present token ->
  Env.extractCredentials request = Throw (PlainError Env.missing_token).
Proof.
  intros Ha Ht. rewrite extract_cases.
  destruct (String.eqb_spec (or_default account EmptyString) EmptyString) as [E|_].
  - apply or_default_empty in E. contradiction.
  - apply or_default_empty in Ht. now rewrite Ht.
Qed.

Lemma extract_ok :
  present account -> present token ->
  Env.extractCredentials request = Ok (Env.parseTenantCredentials request).
Proof.
  intros Ha Ht. rewrite extract_cases.
  destruct (String.eqb_spec (or_default account EmptyString) EmptyString) as [E|_].
  - apply or_default_empty in E. contradiction.
  - destruct (String.eqb_spec (or_default token EmptyString) EmptyString) as [E|_].
    + apply or_default_empty in E. contradiction.
    + reflexivity.
Qed.

Lemma present_dec h : present h \/ ~ present h.
Proof.
  destruct (truthy h) eqn:E.
  - left. now apply truthy_present.
  - right. intros H. apply truthy_present in H. congruence.
Qed.

End Extraction.

(** C8: extraction (parse, then validate) yields credentials exactly when
    the account and token headers are both present and not empty; without
    an account the error names the account header, whether or not the token
    is there; with an account and without a token it names the token header;
    an optional header that is absent leaves its field undefined and causes
    no error. *)
Theorem credential_extraction (request : Env.Request) :
  let account := Env.headers_get request "X-Snowflake-Account" in
  let token := Env.headers_get request "X-Snowflake-Token" in
  ((exists c, Env.extractCredentials request = Ok c)
   <-> present account /\ present token)
  /\ (~ present account ->
      Env.extractCredentials request = Throw (PlainError Env.missing_account))
  /\ (present account -> ~ present token ->
      Env.extractCredentials request = Throw (PlainError Env.missing_token))
  /\ (present account -> present token ->
      Env.extractCredentials request = Ok (Env.parseTenantCredentials request))
  /\ (Env.headers_get request "X-Snowflake-Warehouse" = None ->
      Env.warehouse (Env.parseTenantCredentials request) = None)
  /\ (Env.headers_get request "X-Snowflake-Database" = None ->
      Env.database (Env.parseTenantCredentials request) = None)
  /\ (Env.headers_get request "X-Snowflake-Schema" = None ->
      Env.schema (Env.parseTenantCredentials request) = None)
  /\ (Env.headers_get request "X-Snowflake-Role" = None ->
      Env.role (Env.parseTenantCredentials request) = None)
  /\ includes Env.missing_account "X-Snowflake-Account" = true
  /\ includes Env.missing_token "X-Snowflake-Token" = true.
Proof.
  intros account token.
  split; [split|].
  - intros [c Hc].
    destruct (present_dec account) as [Ha|Ha].
    + destruct (present_dec token) as [Ht|Ht]; [auto|].
      rewrite (extract_no_token request Ha Ht) in Hc. discriminate.
    + rewrite (extract_no_account request Ha) in Hc. discriminate.
  - intros [Ha Ht]. eexists. now apply extract_ok.
  - split; [apply extract_no_account|].
    split; [apply extract_no_token|].
    split; [apply extract_ok|].
    repeat split; try (simpl; intros ->; reflexivity).
Qed.

(** C8 (witness): the two required headers alone; and the token alone. *)
Lemma credential_extraction_witness :
  Env.extractCredentials Sample.required_headers
    = Ok (Env.parseTenantCredentials Sample.required_headers)
  /\ Env.warehouse (Env.parseTenantCredentials Sample.required_headers) = None
  /\ Env.extractCredentials Sample.token_only
     = Throw (PlainError Env.missing_account).
Proof.
  destruct (credential_extraction Sample.required_headers)
    as (_ & _ & _ & Hok & Hw & _).
  destruct (credential_extraction Sample.token_only) as (_ & Hna & _).
  split; [apply Hok; eexists; (split; [reflexivity | discriminate])|].
  split; [apply Hw; reflexivity|].
  apply Hna. intros (v & Hv & _). discriminate.
Defined.

(** ** Warehouse lookup *)

Section WarehouseLookup.

Variable credentials : Env.TenantCredentials.
Variable fetch : Http.Outgoing -> Http.Response Raw.t.

(** An error thrown by [classify] with status code 404 has the generic
    code, not NOT_FOUND. *)
Lemma classify_never_not_found response e :
  classify response = Throw (ApiError e) ->
  Errors.statusCode e = Some 404 -> Errors.code e = "SNOWFLAKE_ERROR".
Proof.
  intros H. apply classify_api_error in H. simpl in H.
  destruct H as [(_ & ->)|[(_ & ->)|[(_ & _ & text & _ & ->)
    |[(_ & _ & text & _ & ->)|(_ & _ & _ & _ & _ & _ & text & _ & ->)]]]];
    first [discriminate | reflexivity].
Qed.

Lemma executeStatement_never_not_found req e :
  executeStatement credentials fetch req = Throw (ApiError e) ->
  Errors.statusCode e = Some 404 -> Errors.code e = "SNOWFLAKE_ERROR".
Proof.
  unfold executeStatement, request.
  destruct (classify _) as [value|thrown] eqn:E; simpl; [discriminate|].
  intros [= ->]. eapply classify_never_not_found; eassumption.
Qed.

End WarehouseLookup.

(** C9: once the SHOW WAREHOUSES LIKE statement has returned its result,
    [getWarehouseStatus] throws an error with code NOT_FOUND, status 404 and
    retryable false exactly when the mapped item list is empty, and returns
    the first mapped warehouse otherwise.  (The error is built by the base
    class with the fields, message included, that [NotFoundError] sets.) *)
Theorem getWarehouseStatus_not_found
    (credentials : Env.TenantCredentials)
    (fetch : Http.Outgoing -> Http.Response Raw.t)
    (warehouseName : string) (result : StatementResult.t) :
  executeStatement credentials fetch
    (statement_with_timeout ("SHOW WAREHOUSES LIKE '" +:+ warehouseName +:+ "'") 30)
  = Ok result ->
  ((exists e,
      getWarehouseStatus credentials fetch warehouseName = Throw (ApiError e)
      /\ Errors.code e = "NOT_FOUND"
      /\ Errors.statusCode e = Some 404
      /\ Errors.retryable e = false)
   <-> items (mapShowResultToWarehouses result) = [])
  /\ (forall first rest,
        items (mapShowResultToWarehouses result) = first :: rest ->
        getWarehouseStatus credentials fetch warehouseName = Ok first)
  /\ (items (mapShowResultToWarehouses result) = [] ->
      exists e,
        getWarehouseStatus credentials fetch warehouseName = Throw (ApiError e)
        /\ Errors.class e = Errors.SnowflakeApiErrorC
        /\ Errors.message e = Errors.message (Errors.new_NotFoundError "Warehouse" warehouseName)
        /\ Errors.sqlState e = None).
Proof.
  intros Hresult. unfold getWarehouseStatus. rewrite Hresult. simpl.
  destruct (items (mapShowResultToWarehouses result)) as [|first rest].
  - split; [split|split].
    + intros _. reflexivity.
    + intros _. eexists. repeat split.
    + discriminate.
    + intros _. eexists. repeat split.
  - split; [split|split].
    + intros (e & He & _). discriminate.
    + discriminate.
    + intros f r [= <- <-]. reflexivity.
    + discriminate.
Qed.

(** A failed statement never passes for a lookup miss: whatever the reply,
    [getWarehouseStatus] throws code NOT_FOUND with status 404 only after a
    statement result that maps to no warehouse. *)
Lemma not_found_only_after_lookup_miss
    (credentials : Env.TenantCredentials)
    (fetch : Http.Outgoing -> Http.Response Raw.t)
    (warehouseName : string) (e : Errors.SnowflakeApiError) :
  getWarehouseStatus credentials fetch warehouseName = Throw (ApiError e) ->
  Errors.code e = "NOT_FOUND" -> Errors.statusCode e = Some 404 ->
  exists result,
    executeStatement credentials fetch
      (statement_with_timeout ("SHOW WAREHOUSES LIKE '" +:+ warehouseName +:+ "'") 30)
    = Ok result
    /\ items (mapShowResultToWarehouses result) = [].
Proof.
  unfold getWarehouseStatus.
  destruct (executeStatement _ _ _) as [result|thrown] eqn:E; simpl.
  - destruct (items (mapShowResultToWarehouses result)) eqn:Hitems;
      [|discriminate].
    intros _ _ _. exists result. split; [reflexivity | exact Hitems].
  - intros [= ->] Hcode Hstatus.
    rewrite (executeStatement_never_not_found _ _ _ _ E Hstatus) in Hcode.
    discriminate.
Qed.

(** C9 (witness): a warehouse that exists, and one that does not. *)
Lemma getWarehouseStatus_not_found_witness :
  (exists w,
     getWarehouseStatus Sample.credentials
       (Sample.always (Sample.ok_reply Sample.one_warehouse)) "WH_XS" = Ok w
     /\ Warehouse.name w = "WH_XS")
  /\ exists e,
       getWarehouseStatus Sample.credentials
         (Sample.always (Sample.ok_reply Sample.no_match)) "WH_NONE"
       = Throw (ApiError e)
       /\ Errors.code e = "NOT_FOUND".
Proof.
  split.
  - destruct (getWarehouseStatus_not_found Sample.credentials
                (Sample.always (Sample.ok_reply Sample.one_warehouse)) "WH_XS"
                (mapStatementResponse Sample.one_warehouse) eq_refl)
      as (_ & Hfirst & _).
    exists (toWarehouse
              (buildColumnMap
                 (ResultSetMetaData.rowType (Sample.metadata Sample.one_warehouse)))
              ["WH_XS"; "SUSPENDED"; "XSMALL"; "0"; "0"]).
    split; [apply (Hfirst _ []); reflexivity | vm_compute; reflexivity].
  - destruct (getWarehouseStatus_not_found Sample.credentials
                (Sample.always (Sample.ok_reply Sample.no_match)) "WH_NONE"
                (mapStatementResponse Sample.no_match) eq_refl)
      as (Hiff & _).
    destruct (proj2 Hiff eq_refl) as (e & He & Hcode & _).
    exists e. split; [exact He | exact Hcode].
Defined.


(** * Further properties of the code *)

(** ** Status inference: the outcomes *)

(** X1: [mapStatus] answers [running] exactly for a non-empty status URL
    without a success message, [failed_with_error] exactly for no status
    URL, no success message and a message with "failed" or "error", and
    [success] in every other case; the other five statuses are never
    produced. *)
Theorem mapStatus_outcomes (statusUrl message : option string) :
  (mapStatus statusUrl message = running
   <-> truthy statusUrl = true /\ message_includes message "success" = false)
  /\ (mapStatus statusUrl message = failed_with_error
      <-> truthy statusUrl = false
          /\ message_includes message "success" = false
          /\ (message_includes message "failed" = true
              \/ message_includes message "error" = true))
  /\ (mapStatus statusUrl message = running
      \/ mapStatus statusUrl message = failed_with_error
      \/ mapStatus statusUrl message = success).
Proof.
  assert (Hf : truthy message = false -> message_includes message "failed" = false).
  { intros Hm. destruct (message_includes message "failed") eqn:E; [|reflexivity].
    apply message_includes_truthy in E; [congruence | discriminate]. }
  assert (He : truthy message = false -> message_includes message "error" = false).
  { intros Hm. destruct (message_includes message "error") eqn:E; [|reflexivity].
    apply message_includes_truthy in E; [congruence | discriminate]. }
  unfold mapStatus. revert Hf He.
  destruct (message_includes message "success"), (truthy statusUrl),
    (truthy message), (message_includes message "failed"),
    (message_includes message "error"); simpl; intros Hf He;
    intuition (try discriminate; try congruence).
Qed.

(** ** The transport: what [request] returns and throws *)

Section RequestOutcomes.

Variable credentials : Env.TenantCredentials.
Variable fetch : Http.Outgoing -> Http.Response Raw.t.
Variable endpoint : string.
Variable options : Http.RequestInit.
Variable queryParams : option (list (string * string)).

Let response := fetch (outgoing credentials endpoint options queryParams).

Lemma classify_value response0 value :
  classify response0 = Ok value ->
  Http.ok response0 = true
  /\ exists members, Http.body response0 = Http.Json members value.
Proof.
  unfold classify.
  destruct (Http.status response0 =? 429); [discriminate|].
  destruct ((Http.status response0 =? 401) || (Http.status response0 =? 403));
    [discriminate|].
  destruct (Http.status response0 =? 408).
  { destruct (get _ "message"); simpl; [|discriminate].
    destruct (get _ "statementHandle"); simpl; [|discriminate].
    destruct (to_text _); discriminate. }
  destruct (Http.status response0 =? 422).
  { destruct (get _ "message"); simpl; [|discriminate].
    destruct (get _ "statementHandle"); simpl; [|discriminate].
    destruct (get _ "sqlState"); simpl; [|discriminate].
    destruct (get _ "code"); simpl; [|discriminate].
    destruct (to_text _); discriminate. }
  destruct (Http.ok response0); simpl; [|destruct (to_text _); discriminate].
  destruct (Http.body response0) as [|members v]; [discriminate|].
  intros [= ->]. split; [reflexivity | eauto].
Qed.

Lemma classify_syntax_error response0 :
  Http.ok response0 = true -> Http.body response0 = Http.NotJson ->
  classify response0 = Throw SyntaxError.
Proof.
  unfold classify, Http.ok. intros Hok Hb.
  pose proof Hok as Hok'.
  apply andb_true_iff in Hok as [H1 H2].
  apply Z.leb_le in H1. apply Z.leb_le in H2.
  repeat (match goal with |- context [?a =? ?b] =>
            destruct (Z.eqb_spec a b); [lia|] end).
  simpl. rewrite Hok'. simpl. now rewrite Hb.
Qed.

(** The error a reply is answered with, by its status. *)
Lemma classify_thrown response0 e :
  classify response0 = Throw (ApiError e) ->
  let st := Http.status response0 in
  (st = 429 /\ Errors.statusCode e = Some 429 /\ Errors.retryable e = true)
  \/ ((st = 401 \/ st = 403)
      /\ Errors.statusCode e = Some 401 /\ Errors.retryable e = false)
  \/ (st = 408 /\ Errors.statusCode e = Some 408 /\ Errors.retryable e = true)
  \/ (st = 422 /\ Errors.statusCode e = Some 422 /\ Errors.retryable e = false)
  \/ (st <> 429 /\ st <> 401 /\ st <> 403 /\ st <> 408 /\ st <> 422
      /\ Errors.statusCode e = Some st /\ Errors.retryable e = false).
Proof.
  intros H st. apply classify_api_error in H. fold st in H. simpl in H.
  destruct H as [(? & ->)|[(? & ->)|[(? & _ & text & _ & ->)
    |[(? & _ & text & _ & ->)|(? & ? & ? & ? & ? & _ & text & _ & ->)]]]].
  - left. auto.
  - right. left. auto.
  - right. right. left. auto.
  - do 3 right. left. auto.
  - do 4 right. split_and!; auto.
Qed.

End RequestOutcomes.

(** X2: [request] returns a value exactly when the reply is 2xx and its
    body is JSON, and the value is that body; a 2xx reply whose body is not
    JSON makes it throw the parser's SyntaxError, which is no error of the
    taxonomy. *)
Theorem request_returns
    (credentials : Env.TenantCredentials)
    (fetch : Http.Outgoing -> Http.Response Raw.t)
    (endpoint : string) (options : Http.RequestInit)
    (queryParams : option (list (string * string))) (value : Raw.t) :
  let response := fetch (outgoing credentials endpoint options queryParams) in
  (request credentials fetch endpoint options queryParams = Ok value
   <-> Http.ok response = true
       /\ exists members, Http.body response = Http.Json members value)
  /\ (Http.ok response = true -> Http.body response = Http.NotJson ->
      request credentials fetch endpoint options queryParams = Throw SyntaxError).
Proof.
  intros response. unfold request. fold response. split; [split|].
  - apply classify_value.
  - intros (Hok & members & Hb). eapply classify_ok_value; eassumption.
  - apply classify_syntax_error.
Qed.

(** X3: an error of the taxonomy thrown by [request] is retryable, as
    [isRetryableError] reads it, exactly when the reply's status is 429 or
    408. *)
Theorem request_retryable
    (credentials : Env.TenantCredentials)
    (fetch : Http.Outgoing -> Http.Response Raw.t)
    (endpoint : string) (options : Http.RequestInit)
    (queryParams : option (list (string * string)))
    (syntaxErrorMessage : string) (e : Errors.SnowflakeApiError) :
  request credentials fetch endpoint options queryParams = Throw (ApiError e) ->
  (isRetryableError syntaxErrorMessage (Caught (ApiError e)) = true
   <-> Http.status (fetch (outgoing credentials endpoint options queryParams)) = 429
       \/ Http.status (fetch (outgoing credentials endpoint options queryParams)) = 408).
Proof.
  unfold request. intros H. apply classify_thrown in H. simpl.
  destruct H as [(? & _ & Hr)|[(? & _ & Hr)|[(? & _ & Hr)|[(? & _ & Hr)|H]]]];
    try rewrite Hr.
  - split; auto.
  - split; [discriminate | lia].
  - split; auto.
  - split; [discriminate | lia].
  - destruct H as (? & ? & ? & ? & ? & _ & Hr). rewrite Hr.
    split; [discriminate | lia].
Qed.

(** X4: the status code an error of [request] reports is the reply's
    status, except that a 403 reply is reported with status code 401. *)
Theorem request_status_code
    (credentials : Env.TenantCredentials)
    (fetch : Http.Outgoing -> Http.Response Raw.t)
    (endpoint : string) (options : Http.RequestInit)
    (queryParams : option (list (string * string)))
    (e : Errors.SnowflakeApiError) :
  request credentials fetch endpoint options queryParams = Throw (ApiError e) ->
  Errors.statusCode e
  = Some (if Http.status (fetch (outgoing credentials endpoint options queryParams))
             =? 403
          then 401
          else Http.status (fetch (outgoing credentials endpoint options queryParams))).
Proof.
  unfold request. intros H. apply classify_thrown in H. simpl in H.
  set (st := Http.status _) in *.
  destruct H as [(? & Hc & _)|[(? & Hc & _)|[(? & Hc & _)|[(? & Hc & _)|H]]]].
  - rewrite Hc. destruct (Z.eqb_spec st 403); [lia | congruence].
  - rewrite Hc. destruct (Z.eqb_spec st 403); [reflexivity|].
    f_equal. lia.
  - rewrite Hc. destruct (Z.eqb_spec st 403); [lia | congruence].
  - rewrite Hc. destruct (Z.eqb_spec st 403); [lia | congruence].
  - destruct H as (? & ? & ? & ? & ? & Hc & _). rewrite Hc.
    destruct (Z.eqb_spec st 403); [contradiction | reflexivity].
Qed.

Lemma append_nonempty (a b : string) : a <> EmptyString -> a +:+ b <> EmptyString.
Proof. destruct a; [contradiction | discriminate]. Qed.

Lemma or_literal_truthy (a : option Json.value) (literal : string) :
  literal <> EmptyString -> Json.truthy (Json.or_literal a literal) = true.
Proof.
  intros Hl.
  assert (Json.truthy (Json.JString literal) = true) as Ht.
  { simpl. now destruct (String.eqb_spec literal EmptyString). }
  unfold Json.or_literal. destruct a as [v|]; [|exact Ht].
  destruct (Json.truthy v) eqn:E; [exact E | exact Ht].
Qed.

(** X5: every error of the taxonomy that [request] throws carries a code
    that is truthy (a text that is not empty, when it is a text), whatever
    the reply's body holds: an empty or missing vendor code is replaced by
    the default.  When the body is as the casts take it (no JSON, or an
    object whose message and error are strings where present), the message
    is not empty either: an empty or missing one is replaced by the default
    text. *)
Theorem request_error_has_message_and_code
    (credentials : Env.TenantCredentials)
    (fetch : Http.Outgoing -> Http.Response Raw.t)
    (endpoint : string) (options : Http.RequestInit)
    (queryParams : option (list (string * string)))
    (e : Errors.SnowflakeApiError) :
  request credentials fetch endpoint options queryParams = Throw (ApiError e) ->
  Json.truthy (Errors.code e) = true
  /\ (expected_error_body
        (Http.body (fetch (outgoing credentials endpoint options queryParams))) ->
      Errors.message e <> EmptyString).
Proof.
  unfold request. intros H. apply classify_api_error in H. simpl in H.
  destruct H as [(_ & ->)|[(_ & ->)|[(_ & _ & text & Ht & ->)
    |[(_ & _ & text & Ht & ->)|(_ & _ & _ & _ & _ & _ & text & Ht & ->)]]]].
  - split; [reflexivity | discriminate].
  - split; [reflexivity | discriminate].
  - split; [reflexivity|]. intros Hb. simpl.
    rewrite (expected_body_member _ "message" Hb) in Ht.
    destruct (expected_body_text _ "message" "Statement execution timed out"
                Hb (or_introl eq_refl) ltac:(discriminate)) as (t & Ht' & Hne).
    rewrite Ht' in Ht. simpl in Ht. congruence.
  - split.
    + apply (or_literal_truthy (Some _)). discriminate.
    + intros Hb. simpl.
      rewrite (expected_body_member _ "message" Hb) in Ht.
      destruct (expected_body_text _ "message" "Statement execution failed"
                  Hb (or_introl eq_refl) ltac:(discriminate)) as (t & Ht' & Hne).
      rewrite Ht' in Ht. simpl in Ht. congruence.
  - split; [reflexivity|]. intros Hb. simpl.
    destruct (expected_body_generic _
                ("Snowflake API error: "
                 +:+ pretty (Http.status
                       (fetch (outgoing credentials endpoint options queryParams))))
                Hb ltac:(apply append_nonempty; discriminate))
      as (t & Ht' & Hne).
    rewrite Ht' in Ht. simpl in Ht. congruence.
Qed.

(** The default is needed: a 500 reply whose body has the message [[]]
    (truthy, and the empty text once converted) is answered with an error
    whose message is empty. *)
Lemma empty_list_message_is_kept :
  request Sample.credentials (Sample.always Fixture.unavailable_empty_list)
          "/statements" Sample.post None
  = Throw (ApiError (Errors.new_SnowflakeApiError EmptyString (Some 500) None)).
Proof. reflexivity. Qed.

(** X19: on a reply that is not 2xx, [request] throws one error of the
    taxonomy, fixed by the status, provided that the body of a reply other
    than 429, 401 and 403 is as the casts take it (no JSON, or an object
    whose message and error are strings where present): 429 gives a
    RateLimitError (RATE_LIMIT_EXCEEDED), retryable, with the seconds parsed
    from a Retry-After header and 60 when the header is absent or empty;
    401 and 403 give an AuthenticationError (AUTHENTICATION_FAILED), not
    retryable; 408 gives a TimeoutError (EXECUTION_TIMEOUT), retryable, with
    the statement handle of the body; 422 gives a StatementError, not
    retryable, with the statement handle, the sqlState and the vendor code
    of the body, STATEMENT_ERROR standing in for a vendor code that is
    missing or falsy; every other status gives the generic error
    (SNOWFLAKE_ERROR) with that status code, not retryable. *)
Theorem request_taxonomy_on_expected_bodies
    (credentials : Env.TenantCredentials)
    (fetch : Http.Outgoing -> Http.Response Raw.t)
    (endpoint : string) (options : Http.RequestInit)
    (queryParams : option (list (string * string))) :
  let response := fetch (outgoing credentials endpoint options queryParams) in
  let st := Http.status response in
  let member := carried (Http.body response) in
  Http.ok response = false ->
  (st <> 429 -> st <> 401 -> st <> 403 ->
   expected_error_body (Http.body response)) ->
  exists e,
    request credentials fetch endpoint options queryParams = Throw (ApiError e)
    /\ (st = 429 ->
        (exists seconds, Errors.class e = Errors.RateLimitErrorC seconds)
        /\ Errors.code e = "RATE_LIMIT_EXCEEDED"
        /\ Errors.retryable e = true
        /\ (Http.retryAfter response = None \/
            Http.retryAfter response = Some EmptyString ->
            Errors.retryAfterSeconds e = Some (Int 60))
        /\ (forall h, Http.retryAfter response = Some h -> h <> EmptyString ->
            Errors.retryAfterSeconds e = Some (parseInt10 h)))
    /\ (st = 401 \/ st = 403 ->
        Errors.class e = Errors.AuthenticationErrorC
        /\ Errors.code e = "AUTHENTICATION_FAILED"
        /\ Errors.retryable e = false)
    /\ (st = 408 ->
        Errors.class e = Errors.TimeoutErrorC (member "statementHandle")
        /\ Errors.code e = "EXECUTION_TIMEOUT"
        /\ Errors.retryable e = true
        /\ Errors.statementHandle e = member "statementHandle")
    /\ (st = 422 ->
        Errors.class e = Errors.StatementErrorC (member "statementHandle")
        /\ Errors.retryable e = false
        /\ Errors.statementHandle e = member "statementHandle"
        /\ Errors.sqlState e = member "sqlState"
        /\ (forall c, member "code" = Some c -> Json.truthy c = true ->
            Errors.code e = c)
        /\ (member "code" = None
            \/ (exists c, member "code" = Some c /\ Json.truthy c = false) ->
            Errors.code e = "STATEMENT_ERROR"))
    /\ (st <> 429 -> st <> 401 -> st <> 403 -> st <> 408 -> st <> 422 ->
        Errors.class e = Errors.SnowflakeApiErrorC
        /\ Errors.code e = "SNOWFLAKE_ERROR"
        /\ Errors.statusCode e = Some st
        /\ Errors.retryable e = false).
Proof.
  intros response st member Hok Hbody. unfold request. fold response.
  unfold classify. fold st.
  destruct (Z.eqb_spec st 429) as [E429|N429].
  { eexists; split; [reflexivity|]. split_and!; try other_status.
    intros _. split_and!; try reflexivity.
    - eexists; reflexivity.
    - intros [-> | ->]; reflexivity.
    - intros h -> Hne. unfold Errors.retryAfterSeconds; simpl.
      destruct (String.eqb_spec h EmptyString); [contradiction | reflexivity]. }
  destruct (Z.eqb_spec st 401) as [E401|N401]; simpl.
  { eexists; split; [reflexivity|]. split_and!; try other_status.
    intros _. split_and!; reflexivity. }
  destruct (Z.eqb_spec st 403) as [E403|N403]; simpl.
  { eexists; split; [reflexivity|]. split_and!; try other_status.
    intros _. split_and!; reflexivity. }
  specialize (Hbody N429 N401 N403).
  pose proof (expected_body_not_null _ Hbody) as Hnn.
  pose proof (expected_body_member _ "statementHandle" Hbody) as Hhandle.
  pose proof (expected_body_member _ "sqlState" Hbody) as Hstate.
  pose proof (expected_body_member _ "code" Hbody) as Hcode.
  pose proof (expected_body_member _ "message" Hbody) as Hmessage.
  fold (member "statementHandle") in Hhandle. fold (member "sqlState") in Hstate.
  fold (member "code") in Hcode.
  destruct (Z.eqb_spec st 408) as [E408|N408].
  { destruct (expected_body_text _ "message" "Statement execution timed out"
                Hbody (or_introl eq_refl) ltac:(discriminate)) as (t & Ht & _).
    unfold get. destruct (json_or_empty (Http.body response)) eqn:Ebody;
      try contradiction; cbn [mbind Result_bind];
      rewrite Hmessage, Ht, Hhandle; cbn [to_text Json.to_string mbind Result_bind];
      (eexists; split; [reflexivity|]; split_and!; try other_status;
       intros _; split_and!; reflexivity). }
  destruct (Z.eqb_spec st 422) as [E422|N422].
  { destruct (expected_body_text _ "message" "Statement execution failed"
                Hbody (or_introl eq_refl) ltac:(discriminate)) as (t & Ht & _).
    assert (forall e,
              e = Errors.new_StatementError t (member "statementHandle")
                    (member "sqlState") (member "code") ->
              (forall c, member "code" = Some c -> Json.truthy c = true ->
                 Errors.code e = c)
              /\ (member "code" = None
                  \/ (exists c, member "code" = Some c /\ Json.truthy c = false) ->
                  Errors.code e = "STATEMENT_ERROR")) as Hvendor.
    { intros e ->. unfold Errors.new_StatementError, Errors.base; simpl.
      split.
      - intros c -> Hc. unfold Json.or_literal. now rewrite !Hc.
      - intros [->|(c & -> & Hc)]; unfold Json.or_literal; [reflexivity|].
        now rewrite Hc. }
    unfold get. destruct (json_or_empty (Http.body response)) eqn:Ebody;
      try contradiction; cbn [mbind Result_bind];
      rewrite Hmessage, Ht, Hhandle, Hstate, Hcode;
      cbn [to_text Json.to_string mbind Result_bind];
      (eexists; split; [reflexivity|]; split_and!; try other_status;
       intros _; split_and!; first [reflexivity | now apply Hvendor]). }
  rewrite Hok. simpl.
  destruct (expected_body_generic _ ("Snowflake API error: " +:+ pretty st)
              Hbody ltac:(apply append_nonempty; discriminate)) as (t & Ht & _).
  rewrite Ht. cbn [to_text Json.to_string mbind Result_bind].
  eexists; split; [reflexivity|]. split_and!; try other_status.
  intros _ _ _ _ _. split_and!; reflexivity.
Qed.

(** ** The statement operations *)

Lemma mapStatus_three_way (statusUrl message : option string) :
  mapStatus statusUrl message = running
  \/ mapStatus statusUrl message = failed_with_error
  \/ mapStatus statusUrl message = success.
Proof.
  unfold mapStatus.
  destruct (_ || _); [auto|].
  destruct (truthy statusUrl); [auto|].
  destruct (_ || _); auto.
Qed.

Section StatementOperations.

Variable credentials : Env.TenantCredentials.
Variable fetch : Http.Outgoing -> Http.Response Raw.t.

Lemma mapped_after_request (r : Result Raw.t) (result : StatementResult.t) :
  (response ← r; Ok (mapStatementResponse response)) = Ok result ->
  exists raw, r = Ok raw /\ result = mapStatementResponse raw.
Proof. destruct r as [raw|t]; simpl; [|discriminate]. intros [= <-]. eauto. Qed.

Lemma statement_operation_reply (req : StatementRequest.t)
    (statementHandle : string) (partition : option Z)
    (result : StatementResult.t) :
  executeStatement credentials fetch req = Ok result
  \/ executeStatementAsync credentials fetch req = Ok result
  \/ getStatementStatus credentials fetch statementHandle = Ok result
  \/ getStatementResult credentials fetch statementHandle partition = Ok result ->
  exists raw, result = mapStatementResponse raw.
Proof.
  intros [H|[H|[H|H]]]; apply mapped_after_request in H as (raw & _ & ->); eauto.
Qed.

End StatementOperations.

(** X6: whichever statement operation returns it (executeStatement,
    executeStatementAsync, getStatementStatus, getStatementResult), a
    statement result has one of the three statuses running, success and
    failed_with_error, and its status is recomputed from its own
    [statementStatusUrl] and [message] by [mapStatus]: the fields the
    status was inferred from are handed on unchanged. *)
Theorem statement_result_status_recomputable
    (credentials : Env.TenantCredentials)
    (fetch : Http.Outgoing -> Http.Response Raw.t)
    (req : StatementRequest.t) (statementHandle : string)
    (partition : option Z) (result : StatementResult.t) :
  executeStatement credentials fetch req = Ok result
  \/ executeStatementAsync credentials fetch req = Ok result
  \/ getStatementStatus credentials fetch statementHandle = Ok result
  \/ getStatementResult credentials fetch statementHandle partition = Ok result ->
  StatementResult.status result
  = mapStatus (StatementResult.statementStatusUrl result)
              (StatementResult.message result)
  /\ (StatementResult.status result = running
      \/ StatementResult.status result = failed_with_error
      \/ StatementResult.status result = success).
Proof.
  intros H. apply statement_operation_reply in H as (raw & ->). simpl.
  split; [reflexivity|]. apply mapStatus_three_way.
Qed.

(** X7: fetching a result without naming a partition is the very call that
    polls the status: the same request (no query at all, the empty set of
    query parameters being replaced by [undefined]), and so the same result
    or the same error. *)
Theorem result_fetch_and_status_poll
    (credentials : Env.TenantCredentials)
    (fetch : Http.Outgoing -> Http.Response Raw.t)
    (statementHandle : string) :
  getStatementResult credentials fetch statementHandle None
  = getStatementStatus credentials fetch statementHandle.
Proof. reflexivity. Qed.

(** ** Acknowledgements *)

(** X8: resuming or suspending a warehouse is acknowledged with
    [success: true] as soon as the ALTER WAREHOUSE statement returns a
    result, whatever status that result was given, and cancelling as soon
    as the cancel call returns; none of the three ever answers
    [success: false]: a failure is the error thrown by the call. *)
Theorem acknowledgements_ignore_status
    (credentials : Env.TenantCredentials)
    (fetch : Http.Outgoing -> Http.Response Raw.t)
    (name : string) :
  (forall result,
     executeStatement credentials fetch
       (statement_with_timeout ("ALTER WAREHOUSE " +:+ quoted name +:+ " RESUME") 60)
     = Ok result ->
     resumeWarehouse credentials fetch name
     = Ok {| Ack.success := true;
             Ack.message := "Warehouse '" +:+ name +:+ "' resumed successfully" |})
  /\ (forall result,
        executeStatement credentials fetch
          (statement_with_timeout
             ("ALTER WAREHOUSE " +:+ quoted name +:+ " SUSPEND") 60)
        = Ok result ->
        suspendWarehouse credentials fetch name
        = Ok {| Ack.success := true;
                Ack.message :=
                  "Warehouse '" +:+ name +:+ "' suspended successfully" |})
  /\ (forall value,
        request credentials fetch ("/statements/" +:+ name +:+ "/cancel")
          {| Http.method := Some "POST"; Http.payload := None |} None
        = Ok value ->
        cancelStatement credentials fetch name
        = Ok {| Ack.success := true;
                Ack.message := "Statement " +:+ name +:+ " cancelled successfully" |})
  /\ (forall ack,
        resumeWarehouse credentials fetch name = Ok ack
        \/ suspendWarehouse credentials fetch name = Ok ack
        \/ cancelStatement credentials fetch name = Ok ack ->
        Ack.success ack = true).
Proof.
  split_and!.
  - intros result H. unfold resumeWarehouse. now rewrite H.
  - intros result H. unfold suspendWarehouse. now rewrite H.
  - intros value H. unfold cancelStatement. now rewrite H.
  - unfold resumeWarehouse, suspendWarehouse, cancelStatement.
    intros ack [H|[H|H]];
      match type of H with
      | context [mbind _ ?r] => destruct r; simpl in H; [|discriminate]
      end;
      injection H as <-; reflexivity.
Qed.

(** ** The connection test *)

Section ConnectionProbe.

Variable credentials : Env.TenantCredentials.

Lemma or_else_same (fallback : option string) :
  or_else fallback fallback = or_else None fallback.
Proof. unfold or_else. now destruct (truthy fallback). Qed.

Lemma set_context_same key fallback body :
  set_context key fallback fallback body = set_context key None fallback body.
Proof. unfold set_context. now rewrite or_else_same. Qed.

End ConnectionProbe.

(** X9: giving the credentials' own defaults as the request's context
    changes nothing in the body submitted: it is the body of the request
    that gives no context at all.  The probe of [testConnection] is such a
    request. *)
Theorem explicit_defaults_are_redundant
    (credentials : Env.TenantCredentials) (statement : string)
    (timeout : option Z)
    (bindings : option (gmap string BindVariable.t))
    (parameters : option (gmap string string)) :
  statementBody credentials
    {| StatementRequest.statement := statement;
       StatementRequest.timeout := timeout;
       StatementRequest.database := Env.database credentials;
       StatementRequest.schema := Env.schema credentials;
       StatementRequest.warehouse := Env.warehouse credentials;
       StatementRequest.role := Env.role credentials;
       StatementRequest.bindings := bindings;
       StatementRequest.parameters := parameters |}
  = statementBody credentials
      {| StatementRequest.statement := statement;
         StatementRequest.timeout := timeout;
         StatementRequest.database := None;
         StatementRequest.schema := None;
         StatementRequest.warehouse := None;
         StatementRequest.role := None;
         StatementRequest.bindings := bindings;
         StatementRequest.parameters := parameters |}
  /\ statementBody credentials (connection_probe credentials)
     = statementBody credentials
         (statement_with_timeout
            "SELECT CURRENT_USER(), CURRENT_ACCOUNT(), CURRENT_ROLE()" 30).
Proof.
  split; unfold statementBody, connection_probe, statement_with_timeout; simpl;
    now rewrite !set_context_same.
Qed.

(** X10: [testConnection] never throws: it reports [connected: true]
    exactly when the probe statement returned a result with status success
    and at least one row; when the statement threw, the report carries the
    thrown error's message; and every report of a failure names the
    credentials' account. *)
Theorem testConnection_report
    (credentials : Env.TenantCredentials)
    (fetch : Http.Outgoing -> Http.Response Raw.t)
    (syntaxErrorMessage : string) :
  (ConnectionTest.connected (testConnection credentials fetch syntaxErrorMessage)
   = true
   <-> exists result row rest,
         executeStatement credentials fetch (connection_probe credentials)
         = Ok result
         /\ StatementResult.status result = success
         /\ StatementResult.data result = Some (row :: rest))
  /\ (forall error,
        executeStatement credentials fetch (connection_probe credentials)
        = Throw error ->
        testConnection credentials fetch syntaxErrorMessage
        = {| ConnectionTest.connected := false;
             ConnectionTest.message := error_message syntaxErrorMessage error;
             ConnectionTest.account := Some (Env.account credentials) |})
  /\ (ConnectionTest.connected (testConnection credentials fetch syntaxErrorMessage)
      = false ->
      ConnectionTest.account (testConnection credentials fetch syntaxErrorMessage)
      = Some (Env.account credentials)).
Proof.
  unfold testConnection.
  destruct (executeStatement credentials fetch (connection_probe credentials))
    as [result|error].
  - destruct (StatementResult.status result) eqn:Hs; simpl;
      try (split_and!;
           [ split; [discriminate | intros (r & row & rest & [= <-] & E & _);
                                    congruence]
           | discriminate
           | reflexivity ]).
    destruct (StatementResult.data result) as [[|row rest]|] eqn:Hd; simpl.
    + split_and!; [|discriminate|reflexivity].
      split; [discriminate|].
      intros (r & row & rest & [= <-] & _ & E). congruence.
    + split_and!; [|discriminate|discriminate].
      split; [|reflexivity]. intros _. exists result, row, rest. auto.
    + split_and!; [|discriminate|reflexivity].
      split; [discriminate|].
      intros (r & row & rest & [= <-] & _ & E). congruence.
  - simpl. split_and!.
    + split; [discriminate | intros (r & _ & _ & E & _); discriminate].
    + intros e [= <-]. reflexivity.
    + reflexivity.
Qed.

(** ** The column map: what it holds *)

Section ColumnMapContents.

Lemma buildColumnMap_from_proto rowType start map :
  buildColumnMap_from start rowType map !! "__proto__" = map !! "__proto__".
Proof.
  revert start map. induction rowType as [|col rest IH]; intros start map; simpl;
    [reflexivity|].
  rewrite IH. unfold set_index.
  destruct (String.eqb_spec (toLowerCase (ColumnMetaData.name col)) "__proto__")
    as [_|Hne]; [reflexivity|].
  now apply lookup_insert_ne.
Qed.

Lemma buildColumnMap_stored rowType key i :
  buildColumnMap rowType !! key = Some i ->
  key <> "__proto__" /\ last_named key rowType = Some i.
Proof.
  intros H.
  assert (Hkey : key <> "__proto__").
  { intros ->. unfold buildColumnMap in H.
    rewrite buildColumnMap_from_proto, lookup_empty in H. discriminate. }
  split; [exact Hkey|]. now rewrite <- buildColumnMap_last_named.
Qed.

(** The map is fixed by the lower-cased names, in their order. *)
Lemma buildColumnMap_from_names rowType1 rowType2 start map :
  List.map (fun col => toLowerCase (ColumnMetaData.name col)) rowType1
  = List.map (fun col => toLowerCase (ColumnMetaData.name col)) rowType2 ->
  buildColumnMap_from start rowType1 map = buildColumnMap_from start rowType2 map.
Proof.
  revert rowType2 start map.
  induction rowType1 as [|c1 rest1 IH]; intros [|c2 rest2] start map; simpl;
    try discriminate; [reflexivity|].
  intros [= Hname Hrest]. rewrite Hname. now apply IH.
Qed.

End ColumnMapContents.

(** X11: an index stored in the column map is a position of [rowType], and
    the column at that position has the key as its lower-cased name; the
    key [__proto__] is never stored.  Hence a row that has a cell for every
    column of [rowType] has a cell for every key the map holds, whatever
    the fallback. *)
Theorem column_map_indexes_in_range
    (rowType : list ColumnMetaData.t) (key : string) (i : nat) :
  buildColumnMap rowType !! key = Some i ->
  (i < length rowType)%nat
  /\ key <> "__proto__"
  /\ (exists col, rowType !! i = Some col
                  /\ toLowerCase (ColumnMetaData.name col) = key)
  /\ (forall row fallback,
        length row = length rowType ->
        cell (buildColumnMap rowType) row key fallback = row !! i
        /\ is_Some (row !! i)).
Proof.
  intros H. pose proof H as Hmap.
  apply buildColumnMap_stored in H as (Hkey & Hlast).
  apply last_named_Some in Hlast as ((col & Hcol & Hname) & _).
  assert (Hlt : (i < length rowType)%nat) by (eapply lookup_lt_Some; eassumption).
  split_and!; [exact Hlt | exact Hkey | eauto |].
  intros row fallback Hlen. split.
  - now apply cell_named.
  - apply lookup_lt_is_Some. lia.
Qed.

(** X12: the six mappers read [rowType] through the lower-cased column
    names only: two statement results with the same rows and the same
    [numRows], whose columns carry the same names up to letter case, are
    mapped to the same page. *)
Theorem mappers_ignore_column_case
    (result1 result2 : StatementResult.t) (md1 md2 : ResultSetMetaData.t)
    (database schema : string) :
  StatementResult.resultSetMetaData result1 = Some md1 ->
  StatementResult.resultSetMetaData result2 = Some md2 ->
  StatementResult.data result1 = StatementResult.data result2 ->
  ResultSetMetaData.numRows md1 = ResultSetMetaData.numRows md2 ->
  List.map (fun col => toLowerCase (ColumnMetaData.name col))
           (ResultSetMetaData.rowType md1)
  = List.map (fun col => toLowerCase (ColumnMetaData.name col))
             (ResultSetMetaData.rowType md2) ->
  mapShowResultToDatabases result1 = mapShowResultToDatabases result2
  /\ mapShowResultToSchemas result1 database
     = mapShowResultToSchemas result2 database
  /\ mapShowResultToTables result1 database schema
     = mapShowResultToTables result2 database schema
  /\ mapShowResultToViews result1 database schema
     = mapShowResultToViews result2 database schema
  /\ mapDescribeResultToColumns result1 = mapDescribeResultToColumns result2
  /\ mapShowResultToWarehouses result1 = mapShowResultToWarehouses result2.
Proof.
  intros Hm1 Hm2 Hd Hn Hnames.
  assert (Hmap : buildColumnMap (ResultSetMetaData.rowType md1)
                 = buildColumnMap (ResultSetMetaData.rowType md2)).
  { unfold buildColumnMap. now apply buildColumnMap_from_names. }
  unfold mapShowResultToDatabases, mapShowResultToSchemas,
    mapShowResultToTables, mapShowResultToViews, mapDescribeResultToColumns,
    mapShowResultToWarehouses, page.
  rewrite Hm1, Hm2, Hd, Hmap, Hn.
  split_and!; reflexivity.
Qed.

(** ** Flag and number cells *)

Lemma lower_char_y (c : ascii) :
  lower_char c = "y"%char <-> c = "y"%char \/ c = "Y"%char.
Proof.
  destruct c as [[] [] [] [] [] [] [] []]; vm_compute;
    (split; [intros H; first [discriminate H | now left | now right]
            | intros [H|H]; first [discriminate H | reflexivity]]).
Qed.

Lemma toLowerCase_y (s : string) :
  toLowerCase s = "y" <-> s = "y" \/ s = "Y".
Proof.
  destruct s as [|c [|c' t]]; simpl.
  - split; [discriminate | intros [?|?]; discriminate].
  - split.
    + intros [= H]. apply lower_char_y in H as [-> | ->]; auto.
    + intros [[= ->] | [= ->]]; reflexivity.
  - split; [discriminate | intros [?|?]; discriminate].
Qed.

Lemma is_text_y (c : option string) :
  is_text c "y" = true <-> c = Some "y" \/ c = Some "Y".
Proof.
  destruct c as [s|]; simpl.
  - rewrite String.eqb_eq, toLowerCase_y.
    split; intros [H|H]; first [left; congruence | right; congruence].
  - split; [discriminate | intros [?|?]; discriminate].
Qed.

(** X13: a yes/no column is read as true exactly when its cell is the one
    letter Y or y; any other text (YES, true, 1, ...), an empty cell and a
    missing cell all read as false.  This is how a column's nullable,
    primaryKey and uniqueKey and a warehouse's isDefault and isCurrent are
    decided. *)
Theorem flags_are_the_letter_y
    (columnMap : gmap string nat) (row : list string) :
  let yes (key : string) :=
    cell columnMap row key (-1) = Some "y" \/ cell columnMap row key (-1) = Some "Y" in
  (Column.nullable (toColumn columnMap row) = true <-> yes "null")
  /\ (Column.primaryKey (toColumn columnMap row) = true <-> yes "primary_key")
  /\ (Column.uniqueKey (toColumn columnMap row) = true <-> yes "unique_key")
  /\ (Warehouse.isDefault (toWarehouse columnMap row) = true <-> yes "is_default")
  /\ (Warehouse.isCurrent (toWarehouse columnMap row) = true <-> yes "is_current").
Proof. intros yes. split_and!; apply is_text_y. Qed.

Section DecimalText.

Lemma digit_pretty_N_char (d : N) :
  (d < 10)%N -> digit (pretty_N_char d) = Some (Z.of_N d).
Proof.
  intros H.
  assert (d = 0 \/ d = 1 \/ d = 2 \/ d = 3 \/ d = 4 \/ d = 5 \/ d = 6
          \/ d = 7 \/ d = 8 \/ d = 9)%N as Hd by lia.
  repeat (destruct Hd as [-> | Hd]; [reflexivity|]). subst. reflexivity.
Qed.

Lemma digits_pretty_N_go (x : N) (s : string) :
  (0 < x)%N -> digits (pretty_N_go x s) None = digits s (Some (Z.of_N x)).
Proof.
  revert s. induction (N.lt_wf_0 x) as [x _ IH]; intros s Hx.
  rewrite pretty_N_go_step by exact Hx.
  pose proof (N.div_mod x 10 ltac:(discriminate)) as Hdm.
  pose proof (N.mod_lt x 10 ltac:(discriminate)) as Hmod.
  destruct (N.eq_0_gt_0_cases (x `div` 10)) as [Hq|Hq].
  - rewrite Hq, pretty_N_go_0. simpl.
    rewrite digit_pretty_N_char by exact Hmod. simpl.
    do 2 f_equal. lia.
  - rewrite IH; [|apply N.div_lt; lia | exact Hq]. simpl.
    rewrite digit_pretty_N_char by exact Hmod. simpl.
    do 2 f_equal. lia.
Qed.

Lemma pretty_N_go_head (x : N) (s : string) :
  (0 < x)%N ->
  exists d t, (d < 10)%N /\ pretty_N_go x s = String (pretty_N_char d) t.
Proof.
  revert s. induction (N.lt_wf_0 x) as [x _ IH]; intros s Hx.
  rewrite pretty_N_go_step by exact Hx.
  pose proof (N.mod_lt x 10 ltac:(discriminate)) as Hmod.
  destruct (N.eq_0_gt_0_cases (x `div` 10)) as [Hq|Hq].
  - rewrite Hq, pretty_N_go_0. eauto.
  - apply IH; [apply N.div_lt; lia | exact Hq].
Qed.

Lemma parseInt10_digit_head (c : ascii) (t : string) (d : Z) :
  digit c = Some d ->
  parseInt10 (String c t)
  = match digits (String c t) None with
    | Some n => to_double (1 * n)
    | None => NaN
    end.
Proof.
  intros H.
  destruct c as [[] [] [] [] [] [] [] []]; vm_compute in H;
    first [discriminate H | reflexivity].
Qed.

Lemma parseInt10_minus (s : string) :
  parseInt10 (String "-"%char s)
  = match digits s None with
    | Some n => to_double (-1 * n)
    | None => NaN
    end.
Proof. reflexivity. Qed.

Lemma parseInt10_pretty_N (x : N) :
  (0 < x)%N -> parseInt10 (pretty_N_go x EmptyString) = to_double (Z.of_N x).
Proof.
  intros Hx.
  destruct (pretty_N_go_head x EmptyString Hx) as (d & t & Hd & Heq).
  pose proof (digits_pretty_N_go x EmptyString Hx) as Hdigits.
  rewrite Heq in *.
  rewrite (parseInt10_digit_head _ _ _ (digit_pretty_N_char d Hd)), Hdigits.
  cbn [digits]. f_equal. lia.
Qed.

(** The decimal text of an integer is read as the double nearest to it. *)
Lemma parseInt10_pretty (z : Z) : parseInt10 (pretty z) = to_double z.
Proof.
  destruct z as [|p|p]; [reflexivity| |].
  - unfold pretty, pretty_Z, pretty, pretty_positive, pretty, pretty_N.
    destruct (decide (N.pos p = 0%N)); [discriminate|].
    now rewrite parseInt10_pretty_N.
  - unfold pretty, pretty_Z, pretty, pretty_positive, pretty, pretty_N.
    destruct (decide (N.pos p = 0%N)); [discriminate|].
    change (parseInt10 (String "-"%char (pretty_N_go (N.pos p) EmptyString))
            = to_double (Z.neg p)).
    rewrite parseInt10_minus, digits_pretty_N_go by reflexivity.
    reflexivity.
Qed.

(** An integer below 2^53 in magnitude is a double. *)
Lemma to_double_safe (z : Z) : Z.abs z < 2 ^ 53 -> to_double z = Int z.
Proof.
  intros H. unfold to_double.
  destruct (Z.ltb_spec (Z.abs z) (2 ^ 53)); [reflexivity | lia].
Qed.

Lemma to_double_not_NaN (z : Z) : to_double z <> NaN.
Proof.
  unfold to_double. destruct (Z.abs z <? 2 ^ 53); [discriminate|].
  match goal with |- context [if ?c then Infinity _ else _] => destruct c end;
    discriminate.
Qed.

Lemma parseInt10_pretty_safe (z : Z) :
  Z.abs z < 2 ^ 53 -> parseInt10 (pretty z) = Int z.
Proof. intros H. now rewrite parseInt10_pretty, to_double_safe. Qed.

Lemma int_cell_pretty (z : Z) :
  Z.abs z < 2 ^ 53 -> int_cell (Some (pretty z)) = Some (Int z).
Proof.
  intros Hz. unfold int_cell. rewrite parseInt10_pretty_safe by exact Hz.
  destruct (String.eqb_spec (pretty z) EmptyString) as [E|_]; [|reflexivity].
  pose proof (parseInt10_pretty_safe z Hz) as H. rewrite E in H. discriminate.
Qed.

End DecimalText.

(** X14: a numeric cell that holds, in decimal text, an integer below 2^53
    in magnitude is read back as that integer, zero and negative numbers
    included (never NaN, never undefined): so are read a table's rows and
    bytes and a warehouse's cluster counts, running and queued queries and
    auto-suspend delay.  (A larger integer is read as the double nearest to
    it.) *)
Theorem decimal_cells_round_trip
    (columnMap : gmap string nat) (row : list string)
    (database schema : string) (z : Z) :
  Z.abs z < 2 ^ 53 ->
  parseInt10 (pretty z) = Int z
  /\ (cell columnMap row "rows" (-1) = Some (pretty z) ->
      Table.rows (toTable database schema columnMap row) = Some (Int z))
  /\ (cell columnMap row "bytes" (-1) = Some (pretty z) ->
      Table.bytes (toTable database schema columnMap row) = Some (Int z))
  /\ (cell columnMap row "min_cluster_count" (-1) = Some (pretty z) ->
      Warehouse.minClusterCount (toWarehouse columnMap row) = Some (Int z))
  /\ (cell columnMap row "max_cluster_count" (-1) = Some (pretty z) ->
      Warehouse.maxClusterCount (toWarehouse columnMap row) = Some (Int z))
  /\ (cell columnMap row "started_clusters" (-1) = Some (pretty z) ->
      Warehouse.startedClusters (toWarehouse columnMap row) = Some (Int z))
  /\ (cell columnMap row "running" (-1) = Some (pretty z) ->
      Warehouse.running (toWarehouse columnMap row) = Some (Int z))
  /\ (cell columnMap row "queued" (-1) = Some (pretty z) ->
      Warehouse.queued (toWarehouse columnMap row) = Some (Int z))
  /\ (cell columnMap row "auto_suspend" (-1) = Some (pretty z) ->
      Warehouse.autoSuspend (toWarehouse columnMap row) = Some (Int z)).
Proof.
  intros Hz. split; [now apply parseInt10_pretty_safe|].
  split_and!; intros H; simpl; rewrite H; now apply int_cell_pretty.
Qed.

(** Past 2^53 the text is rounded: 2^53 + 1 is read as 2^53. *)
Lemma parseInt10_rounds :
  parseInt10 "9007199254740993" = Int 9007199254740992
  /\ parseInt10 "12345678901234567890" = Int 12345678901234567168.
Proof. split; vm_compute; reflexivity. Qed.

(** ** Numeric configuration *)

(** X15: the numeric settings are never NaN: a variable whose text starts
    (after white space and a sign) with digits gives the number read, in
    particular the decimal text of [n], an integer below 2^53 in magnitude,
    gives [n]; any other text, and a key that is not a text variable, gives
    the default (50000, 20, 100 and 60 for the four getters). *)
Theorem getEnvNumber_never_NaN (env : Config.Env) (key : Config.Key) (d : Z) :
  Config.getEnvNumber env key (Int d) <> NaN
  /\ (forall value, Config.text_of env key = Some value ->
        parseInt10 value <> NaN ->
        Config.getEnvNumber env key (Int d) = parseInt10 value)
  /\ (forall n, Z.abs n < 2 ^ 53 ->
        Config.text_of env key = Some (pretty n) ->
        Config.getEnvNumber env key (Int d) = Int n)
  /\ (forall value, Config.text_of env key = Some value ->
        parseInt10 value = NaN ->
        Config.getEnvNumber env key (Int d) = Int d)
  /\ (Config.text_of env key = None ->
      Config.getEnvNumber env key (Int d) = Int d)
  /\ (parseInt10 (Config.CHARACTER_LIMIT env) = NaN ->
      Config.getCharacterLimit env = Int 50000)
  /\ (parseInt10 (Config.DEFAULT_PAGE_SIZE env) = NaN ->
      Config.getDefaultPageSize env = Int 20)
  /\ (parseInt10 (Config.MAX_PAGE_SIZE env) = NaN ->
      Config.getMaxPageSize env = Int 100)
  /\ (parseInt10 (Config.DEFAULT_TIMEOUT env) = NaN ->
      Config.getDefaultTimeout env = Int 60).
Proof.
  unfold Config.getCharacterLimit, Config.getDefaultPageSize,
    Config.getMaxPageSize, Config.getDefaultTimeout, Config.getEnvNumber.
  split_and!.
  - destruct (Config.text_of env key) as [value|]; [|discriminate].
    destruct (parseInt10 value); discriminate.
  - intros value -> Hv. destruct (parseInt10 value); [contradiction|reflexivity..].
  - intros n Hn ->. now rewrite parseInt10_pretty_safe.
  - intros value -> ->. reflexivity.
  - intros ->. reflexivity.
  - simpl. intros ->. reflexivity.
  - simpl. intros ->. reflexivity.
  - simpl. intros ->. reflexivity.
  - simpl. intros ->. reflexivity.
Qed.

(** ** The worker's fetch handler *)

Section WorkerRouting.

Lemma validate_ok credentials :
  Env.validateCredentials credentials = Ok tt
  <-> Env.account credentials <> EmptyString
      /\ Env.token credentials <> EmptyString.
Proof.
  unfold Env.validateCredentials.
  destruct (String.eqb_spec (Env.account credentials) EmptyString);
    [split; [discriminate | intros [? _]; contradiction]|].
  destruct (String.eqb_spec (Env.token credentials) EmptyString);
    [split; [discriminate | intros [_ ?]; contradiction]|].
  split; auto.
Qed.

Lemma parsed_account request :
  Env.account (Env.parseTenantCredentials request) <> EmptyString
  <-> present (Env.headers_get request "X-Snowflake-Account").
Proof.
  simpl. rewrite or_default_empty.
  destruct (present_dec (Env.headers_get request "X-Snowflake-Account")); tauto.
Qed.

Lemma parsed_token request :
  Env.token (Env.parseTenantCredentials request) <> EmptyString
  <-> present (Env.headers_get request "X-Snowflake-Token").
Proof.
  simpl. rewrite or_default_empty.
  destruct (present_dec (Env.headers_get request "X-Snowflake-Token")); tauto.
Qed.

Lemma validate_no_account request :
  ~ present (Env.headers_get request "X-Snowflake-Account") ->
  Env.validateCredentials (Env.parseTenantCredentials request)
  = Throw (PlainError Env.missing_account).
Proof.
  intros H. unfold Env.validateCredentials.
  destruct (String.eqb_spec (Env.account (Env.parseTenantCredentials request))
              EmptyString) as [_|E]; [reflexivity|].
  apply parsed_account in E. contradiction.
Qed.

Lemma validate_no_token request :
  present (Env.headers_get request "X-Snowflake-Account") ->
  ~ present (Env.headers_get request "X-Snowflake-Token") ->
  Env.validateCredentials (Env.parseTenantCredentials request)
  = Throw (PlainError Env.missing_token).
Proof.
  intros Ha Ht. unfold Env.validateCredentials.
  destruct (String.eqb_spec (Env.account (Env.parseTenantCredentials request))
              EmptyString) as [E|_].
  { apply parsed_account in Ha. contradiction. }
  destruct (String.eqb_spec (Env.token (Env.parseTenantCredentials request))
              EmptyString) as [_|E]; [reflexivity|].
  apply parsed_token in E. contradiction.
Qed.

Lemma validate_both request :
  present (Env.headers_get request "X-Snowflake-Account") ->
  present (Env.headers_get request "X-Snowflake-Token") ->
  Env.validateCredentials (Env.parseTenantCredentials request) = Ok tt.
Proof.
  intros Ha Ht. apply validate_ok. split.
  - now apply parsed_account.
  - now apply parsed_token.
Qed.

End WorkerRouting.

(** X16: the worker hands a request on to the MCP handler only when it is a
    POST to /mcp whose account and token headers are both present and not
    empty, and then with the credentials parsed from that request's own
    headers: no client is ever built without an account and a token. *)
Theorem worker_delegates_only_with_credentials
    (syntaxErrorMessage : string) (incoming : Worker.Incoming)
    (credentials : Env.TenantCredentials) :
  Worker.fetch syntaxErrorMessage incoming = Worker.Delegated credentials ->
  Worker.pathname incoming = "/mcp"
  /\ Worker.method incoming = "POST"
  /\ credentials = Env.parseTenantCredentials (Worker.request incoming)
  /\ Env.account credentials <> EmptyString
  /\ Env.token credentials <> EmptyString
  /\ present (Env.headers_get (Worker.request incoming) "X-Snowflake-Account")
  /\ present (Env.headers_get (Worker.request incoming) "X-Snowflake-Token").
Proof.
  unfold Worker.fetch.
  destruct (String.eqb_spec (Worker.pathname incoming) "/health"); [discriminate|].
  destruct (String.eqb_spec (Worker.pathname incoming) "/mcp") as [Hp|Hp]; simpl.
  - destruct (String.eqb_spec (Worker.method incoming) "POST") as [Hm|Hm].
    + destruct (Env.validateCredentials _) as [[]|error] eqn:Hv; [|discriminate].
      intros [= <-]. apply validate_ok in Hv as [Ha Ht].
      split_and!; auto.
      * now apply parsed_account.
      * now apply parsed_token.
    + destruct (String.eqb (Worker.pathname incoming) "/sse"); discriminate.
  - destruct (String.eqb (Worker.pathname incoming) "/sse"); discriminate.
Qed.

(** X17: on the path /mcp, a POST that lacks the account header is answered
    401 with the message naming that header, one that has the account and
    lacks the token is answered 401 with the message naming the token
    header, and one that has both is handed on; any other method on /mcp is
    answered with the documentation, status 200.  The path /health is
    answered before the credentials are looked at. *)
Theorem worker_mcp_route
    (syntaxErrorMessage : string) (incoming : Worker.Incoming) :
  let account := Env.headers_get (Worker.request incoming) "X-Snowflake-Account" in
  let token := Env.headers_get (Worker.request incoming) "X-Snowflake-Token" in
  (Worker.pathname incoming = "/health" ->
   Worker.fetch syntaxErrorMessage incoming = Worker.Health)
  /\ (Worker.pathname incoming = "/mcp" ->
      (Worker.method incoming = "POST" -> ~ present account ->
       Worker.fetch syntaxErrorMessage incoming
       = Worker.Unauthorized Env.missing_account)
      /\ (Worker.method incoming = "POST" -> present account -> ~ present token ->
          Worker.fetch syntaxErrorMessage incoming
          = Worker.Unauthorized Env.missing_token)
      /\ (Worker.method incoming = "POST" -> present account -> present token ->
          Worker.fetch syntaxErrorMessage incoming
          = Worker.Delegated (Env.parseTenantCredentials (Worker.request incoming)))
      /\ (Worker.method incoming <> "POST" ->
          Worker.fetch syntaxErrorMessage incoming = Worker.Documentation))
  /\ (forall message,
        Worker.fetch syntaxErrorMessage incoming = Worker.Unauthorized message ->
        Worker.status (Worker.fetch syntaxErrorMessage incoming) = Some 401
        /\ (message = Env.missing_account \/ message = Env.missing_token)).
Proof.
  intros account token. unfold Worker.fetch.
  split_and!.
  - intros ->. reflexivity.
  - intros Hp.
    destruct (String.eqb_spec (Worker.pathname incoming) "/health") as [E|_];
      [rewrite Hp in E; discriminate|].
    destruct (String.eqb_spec (Worker.pathname incoming) "/mcp") as [_|N];
      [|contradiction].
    split_and!.
    + intros Hm Hna. rewrite Hm. cbn [String.eqb Ascii.eqb Bool.eqb andb].
      now rewrite validate_no_account.
    + intros Hm Hpa Hnt. rewrite Hm. cbn [String.eqb Ascii.eqb Bool.eqb andb].
      now rewrite validate_no_token.
    + intros Hm Hpa Hpt. rewrite Hm. cbn [String.eqb Ascii.eqb Bool.eqb andb].
      now rewrite validate_both.
    + intros Hm.
      destruct (String.eqb_spec (Worker.method incoming) "POST"); [contradiction|].
      cbn [andb]. rewrite Hp. reflexivity.
  - intros message.
    destruct (String.eqb (Worker.pathname incoming) "/health"); [discriminate|].
    destruct (String.eqb (Worker.pathname incoming) "/mcp"
              && String.eqb (Worker.method incoming) "POST").
    + unfold Env.validateCredentials.
      destruct (String.eqb _ EmptyString); [intros [= <-]; auto|].
      destruct (String.eqb _ EmptyString); [intros [= <-]; auto | discriminate].
    + destruct (String.eqb (Worker.pathname incoming) "/sse"); discriminate.
Qed.

(** ** Instances of the further properties *)

(** X2 (witness): a 200 reply with a JSON body, and one without. *)
Lemma request_returns_witness :
  request Sample.credentials (Sample.always (Sample.ok_reply Sample.no_rows))
    "/statements" Sample.post None = Ok Sample.no_rows
  /\ request Sample.credentials (Sample.always Fixture.empty_body)
       "/statements" Sample.post None = Throw SyntaxError.
Proof.
  split.
  - apply (request_returns Sample.credentials
             (Sample.always (Sample.ok_reply Sample.no_rows))
             "/statements" Sample.post None Sample.no_rows).
    split; [reflexivity | eexists; reflexivity].
  - apply (request_returns Sample.credentials (Sample.always Fixture.empty_body)
             "/statements" Sample.post None Sample.no_rows); reflexivity.
Defined.

(** X3 (witness): status 429. *)
Lemma request_retryable_witness :
  isRetryableError EmptyString
    (Caught (ApiError (Errors.new_RateLimitError "Rate limit exceeded" (Int 30))))
  = true.
Proof.
  apply (request_retryable Sample.credentials (Sample.always Sample.rate_limited)
           "/statements" Sample.post None EmptyString
           (Errors.new_RateLimitError "Rate limit exceeded" (Int 30)) eq_refl).
  left. reflexivity.
Defined.

(** X4 (witness): status 403 is reported as 401. *)
Lemma request_status_code_witness :
  Errors.statusCode
    (Errors.new_AuthenticationError
       "Authentication failed. Check your Snowflake account and JWT token.")
  = Some 401.
Proof.
  exact (request_status_code Sample.credentials (Sample.always Fixture.forbidden)
           "/statements" Sample.post None
           (Errors.new_AuthenticationError
              "Authentication failed. Check your Snowflake account and JWT token.")
           eq_refl).
Defined.

(** X5 (witness): status 422 with an empty message and an empty code. *)
Lemma request_error_has_message_and_code_witness :
  Json.truthy
    (Errors.code
       (Errors.new_StatementError "Statement execution failed"
          (Some (Json.JString "01b2-0002")) (Some (Json.JString "42000"))
          (Some (Json.JString EmptyString)))) = true
  /\ Errors.message
       (Errors.new_StatementError "Statement execution failed"
          (Some (Json.JString "01b2-0002")) (Some (Json.JString "42000"))
          (Some (Json.JString EmptyString))) <> EmptyString.
Proof.
  destruct (request_error_has_message_and_code Sample.credentials
              (Sample.always Fixture.unprocessable) "/statements" Sample.post None
              (Errors.new_StatementError "Statement execution failed"
                 (Some (Json.JString "01b2-0002")) (Some (Json.JString "42000"))
                 (Some (Json.JString EmptyString)))
              eq_refl) as [Hcode Hmessage].
  split; [exact Hcode|]. apply Hmessage.
  intros key v [-> | ->] H; vm_compute in H;
    first [discriminate H | injection H as <-; eexists; reflexivity].
Defined.

(** X6 (witness): a status poll answered with an error message. *)
Lemma statement_result_status_recomputable_witness :
  StatementResult.status (mapStatementResponse Fixture.sql_error)
  = mapStatus (StatementResult.statementStatusUrl
                 (mapStatementResponse Fixture.sql_error))
              (StatementResult.message (mapStatementResponse Fixture.sql_error)).
Proof.
  apply (statement_result_status_recomputable Sample.credentials
           (Sample.always (Sample.ok_reply Fixture.sql_error))
           (Sample.select_in "SALES") "01b2-0003" None
           (mapStatementResponse Fixture.sql_error)).
  right. right. left. reflexivity.
Defined.

(** X8 (witness): a resume whose statement result has status
    failed_with_error is acknowledged all the same. *)
Lemma acknowledgements_ignore_status_witness :
  StatementResult.status (mapStatementResponse Fixture.sql_error)
  = failed_with_error
  /\ resumeWarehouse Sample.credentials
       (Sample.always (Sample.ok_reply Fixture.sql_error)) "WH_XS"
     = Ok {| Ack.success := true;
             Ack.message := "Warehouse 'WH_XS' resumed successfully" |}.
Proof.
  split; [reflexivity|].
  destruct (acknowledgements_ignore_status Sample.credentials
              (Sample.always (Sample.ok_reply Fixture.sql_error)) "WH_XS")
    as (Hresume & _).
  apply (Hresume (mapStatementResponse Fixture.sql_error)). reflexivity.
Defined.

(** X10 (witness): the probe answered with one row. *)
Lemma testConnection_report_witness :
  ConnectionTest.connected
    (testConnection Sample.credentials
       (Sample.always (Sample.ok_reply Fixture.who_am_i)) EmptyString) = true.
Proof.
  apply (testConnection_report Sample.credentials
           (Sample.always (Sample.ok_reply Fixture.who_am_i)) EmptyString).
  exists (mapStatementResponse Fixture.who_am_i), ["ALICE"; "ACME"; "ANALYST"], [].
  split_and!; reflexivity.
Defined.

(** X11 (witness): the key [state] of a two-column map. *)
Lemma column_map_indexes_in_range_witness :
  (1 < length [Sample.named "Name"; Sample.named "STATE"])%nat
  /\ cell (buildColumnMap [Sample.named "Name"; Sample.named "STATE"])
          ["WH_XS"; "STARTED"] "state" 7 = Some "STARTED".
Proof.
  destruct (column_map_indexes_in_range
              [Sample.named "Name"; Sample.named "STATE"] "state" 1%nat)
    as (Hlt & _ & _ & Hcell).
  - vm_compute. reflexivity.
  - split; [exact Hlt|].
    destruct (Hcell ["WH_XS"; "STARTED"] 7 eq_refl) as [-> _]. reflexivity.
Defined.

(** X12 (witness): SHOW WAREHOUSES under lower-case and under upper-case
    column names. *)
Lemma mappers_ignore_column_case_witness :
  mapShowResultToWarehouses (mapStatementResponse Sample.one_warehouse)
  = mapShowResultToWarehouses (mapStatementResponse Fixture.warehouse_upper).
Proof.
  apply (mappers_ignore_column_case
           (mapStatementResponse Sample.one_warehouse)
           (mapStatementResponse Fixture.warehouse_upper)
           (Sample.metadata Sample.one_warehouse)
           (Sample.metadata Fixture.warehouse_upper)
           "DB" "PUBLIC"); reflexivity.
Defined.

(** X14 (witness): the cell -12 of a column [running]. *)
Lemma decimal_cells_round_trip_witness :
  Warehouse.running
    (toWarehouse (buildColumnMap [Sample.named "running"]) ["-12"])
  = Some (Int (-12)).
Proof.
  apply (decimal_cells_round_trip (buildColumnMap [Sample.named "running"])
           ["-12"] "DB" "PUBLIC" (-12)); [lia|].
  vm_compute. reflexivity.
Defined.

(** X15 (witness): a limit given in digits, and a page size given in
    words. *)
Lemma getEnvNumber_never_NaN_witness :
  Config.getEnvNumber Fixture.environment Config.KCHARACTER_LIMIT (Int 50000)
  = Int 25000
  /\ Config.getDefaultPageSize Fixture.environment = Int 20.
Proof.
  destruct (getEnvNumber_never_NaN Fixture.environment
              Config.KCHARACTER_LIMIT 50000)
    as (_ & _ & Hdigits & _ & _ & _ & Hwords & _).
  split.
  - apply (Hdigits 25000); [lia | reflexivity].
  - apply Hwords. reflexivity.
Defined.

(** X16 (witness): a POST to /mcp with both headers. *)
Lemma worker_delegates_only_with_credentials_witness :
  Env.account (Env.parseTenantCredentials Sample.required_headers) <> EmptyString
  /\ Env.token (Env.parseTenantCredentials Sample.required_headers) <> EmptyString.
Proof.
  destruct (worker_delegates_only_with_credentials EmptyString Fixture.mcp_post
              (Env.parseTenantCredentials Sample.required_headers) eq_refl)
    as (_ & _ & _ & Ha & Ht & _).
  split; [exact Ha | exact Ht].
Defined.

(** X17 (witness): a POST without the account header, and a GET. *)
Lemma worker_mcp_route_witness :
  Worker.fetch EmptyString Fixture.mcp_post_token_only
  = Worker.Unauthorized Env.missing_account
  /\ Worker.fetch EmptyString Fixture.mcp_get = Worker.Documentation.
Proof.
  destruct (worker_mcp_route EmptyString Fixture.mcp_post_token_only)
    as (_ & Hpost & _).
  destruct (worker_mcp_route EmptyString Fixture.mcp_get) as (_ & Hget & _).
  split.
  - apply (Hpost eq_refl); [reflexivity|].
    intros (v & Hv & _). discriminate.
  - apply (Hget eq_refl). discriminate.
Defined.

(** X19 (witness): status 429 with [Retry-After: 30], status 408 with a
    body that names the statement, and status 422 with a statement handle,
    an sqlState and an empty vendor code. *)
Lemma request_taxonomy_on_expected_bodies_witness :
  (exists e,
     request Sample.credentials (Sample.always Sample.rate_limited)
             "/statements" Sample.post None = Throw (ApiError e)
     /\ Errors.code e = "RATE_LIMIT_EXCEEDED"
     /\ Errors.retryAfterSeconds e = Some (Int 30))
  /\ (exists e,
       request Sample.credentials (Sample.always Fixture.timed_out)
               "/statements" Sample.post None = Throw (ApiError e)
       /\ Errors.code e = "EXECUTION_TIMEOUT"
       /\ Errors.statementHandle e = Some (Json.JString "01b2-0001"))
  /\ (exists e,
       request Sample.credentials (Sample.always Fixture.unprocessable)
               "/statements" Sample.post None = Throw (ApiError e)
       /\ Errors.statementHandle e = Some (Json.JString "01b2-0002")
       /\ Errors.sqlState e = Some (Json.JString "42000")
       /\ Errors.code e = "STATEMENT_ERROR").
Proof.
  split; [|split].
  - destruct (request_taxonomy_on_expected_bodies Sample.credentials
                (Sample.always Sample.rate_limited) "/statements" Sample.post None
                eq_refl) as (e & He & H429 & _).
    { intros H. exfalso. apply H. reflexivity. }
    exists e. split; [exact He|].
    destruct (H429 eq_refl) as (_ & Hk & _ & _ & Hh).
    split; [exact Hk|].
    apply (Hh "30"); [reflexivity | discriminate].
  - destruct (request_taxonomy_on_expected_bodies Sample.credentials
                (Sample.always Fixture.timed_out) "/statements" Sample.post None
                eq_refl) as (e & He & _ & _ & H408 & _).
    { intros _ _ _ key v [-> | ->] H; vm_compute in H;
        first [discriminate H | injection H as <-; eexists; reflexivity]. }
    exists e. split; [exact He|].
    destruct (H408 eq_refl) as (_ & Hk & _ & Hh).
    split; [exact Hk | exact Hh].
  - destruct (request_taxonomy_on_expected_bodies Sample.credentials
                (Sample.always Fixture.unprocessable) "/statements" Sample.post
                None eq_refl) as (e & He & _ & _ & _ & H422 & _).
    { intros _ _ _ key v [-> | ->] H; vm_compute in H;
        first [discriminate H | injection H as <-; eexists; reflexivity]. }
    exists e. split; [exact He|].
    destruct (H422 eq_refl) as (_ & _ & Hh & Hs & _ & Hc).
    split; [exact Hh|]. split; [exact Hs|].
    apply Hc. right. exists (Json.JString EmptyString). split; reflexivity.
Defined.
